(* ===== verification/_CoqProject ===== *)
-Q . S2P
Prelude.v
JsString.v
Parser.v
Calendar.v
JsDate.v
Intl.v
Grid.v
DayLoop.v
Dst.v
Query.v
