(* ===== verification/Prelude.v ===== *)
(** * A verification development of grega/timezone-viewer

    The program ([src/script.js], one browser script) renders a table of
    the next fifteen days, one row per hour and one column per requested
    timezone.  It has three parts, which interact by plain calls:

    - the specifier parser [getTimezones] (lines 2-45) turns the [tz]
      query parameter into a list of column descriptors
      [{ timezone, customLabel, isPureOffset }];
    - the Intl helpers [getTimezoneAbbr], [formatTime],
      [getHourInTimezone], [isWorkingHours], [getFriendlyLocation],
      [formatDate], [isToday] (lines 47-107) wrap the ECMAScript
      [Intl.DateTimeFormat] and [Date] services;
    - the grid loop [renderTable] (lines 109-207) walks days 0..14, hours
      [startHour]..23 and the columns, calls the helpers for every cell and
      appends one [<details>] element per day to the page.

    Files of the development, in dependency order:

    - [Prelude] (this file): the [js_scope] notations, the result type
      [result] of computations that may throw, its monadic bind and the
      list traversal [mapM] used for the source's [forEach] loops, the
      hint database [js] and the tactics shared by every file.
    - [JsString]: the ECMAScript string built-ins the parser calls:
      [String.prototype.trim], [split] with a one-character separator,
      [includes], [padStart], [replace(/_/g, ' ')], the regular
      expression [/^[+-]?\d+$/], [parseInt] and the decimal rendering of
      integers used by template literals.  Strings are Stdlib [string]s
      (8-bit characters; the whitespace set is ECMAScript's restricted to
      code points below 256).
    - [Parser]: [getTimezones] and its per-token callback, the record of a
      column, and the laws of parsing: offsets invert their sign in the
      [Etc/GMT] identifier, pure offsets carry a [UTC+n] label, labels
      follow the first colon, one column per comma-separated token, the
      default set when the parameter is absent.

    - [Calendar] ([Module Civil]): the proleptic Gregorian calendar of
      ECMAScript dates, day numbers to dates and back by eras of 400
      years, with the round trip proved once per era by evaluation.
    - [JsDate] ([Module EcmaDate]): time values as [Z] milliseconds, the
      abstract operations Day, MakeTime, MakeDay, MakeDate of ECMA-262
      and the methods [getDate], [getMonth], [getFullYear], [getHours],
      [setDate], [setHours] in a local zone of constant offset
      [LocalTZA], with the laws the grid needs ([setDate] moves the local
      day, [setHours] on a midnight gives that hour).
    - [Intl] ([Module IntlDTF]): [Intl.DateTimeFormat] as the type class
      [IntlService] (zones it knows, [format], [formatToParts]) and its
      [RangeError]; the helpers [getTimezoneAbbr], [formatTime],
      [getHourInTimezone], [isWorkingHours], [formatDate], [isToday] as
      [result]-returning functions; the class [IntlLaws] (a formatter
      prints the zone's wall-clock hour, or [24] at midnight); and the
      instance [EtcIntl] for [UTC] and the [Etc/GMT] zones, with which
      whole renders evaluate.
    - [Grid] ([Module Render]): [renderTable] in a state and error monad
      [M] whose state [rstate] is the list of day sections appended to
      [days-container] and the number of [new Date()] readings taken from
      a clock [clock : nat -> Z]; every element the loop builds is a
      record of its text, classes and open flag ([day_section], [row],
      [cell]).  The operations follow the source: [clear_container],
      [new_Date], [render_day] (one iteration of the day loop),
      [header_cell], [make_row], [make_cell], [append_day].
    - [DayLoop] ([Module RenderLoop]): the [for] statement over
      [dayOffset] as a transition system [step] on [loop_state]
      ([Running dayOffset st], [Done st], [Aborted e st]) with one rule
      per outcome of the test and of the body.
    - [Dst] ([Module DstDate]): the same Date methods in a local zone
      with one daylight-saving transition ([tzone]: the offset before,
      the offset after, the instant of the change), with ECMA-262's
      LocalTime and UTC: a local time in the spring-forward gap is
      resolved with the offset before the transition, one in a fall-back
      overlap with the earlier instant; [day_date] and [setHours] as the
      day loop and the hour loop call them.
    - [Query] ([Module UrlQuery]): [new URLSearchParams(search).get('tz')]
      of lines 3-4 as the URL Standard's form parser (split on [&], split
      at the first [=], [+] read as a space, percent-decode, first match),
      so that [tzParam_of search] is the value [getTimezones] receives.

    What the theorems show:

    - parser (Parser.v): the offset inversion law and the [UTC+n] label
      of pure offsets, when a column is a pure offset, token isolation,
      the label between the first two colons, the column invariant
      [tz_wf], one column per token, the default columns, the header
      location;
    - grid (Grid.v): [renderTable_spec], a refinement of the loop by the
      declarative grid [grid_spec] when every zone is known, and the
      [RangeError] of an unknown zone with an empty page otherwise; from
      it, fifteen sections with the expected rows, headers and cells, the
      today/open marks, the cell of every hour and zone, the dependence of
      the [today] mark on a later clock reading (a render that crosses
      midnight marks the second section as today), independence from the
      previous page, the range [-12, 14] of offsets that render, and a
      blank token (a trailing comma) kept as a column of zone [""] that
      makes the whole render throw;
    - helpers: [isWorkingHours] against the zone's wall-clock hour
      (Intl.v);
    - day loop (DayLoop.v): every state reaches [Done] or [Aborted]
      within [1 + (15 - dayOffset)] steps (liveness); every reachable
      state satisfies the loop invariant (rule induction with
      [rtc_ind_r]); the lemma [renderTable_loop] shows that the
      transition system and [renderTable] agree on the final state;
    - daylight saving (Dst.v): on a spring-forward day two rows of a
      section show the same instant, on a fall-back day the second
      occurrence of the repeated hour is never shown;
    - query string (Query.v): a raw [+] before an offset is read as a
      space and trimmed away; a raw [+] in a zone name
      ([?tz=Etc/GMT+n]) yields the unknown zone [Etc/GMT n] and a page
      without grid, while [Etc/GMT%2Bn] renders.

    Lemmas that check the model itself rather than the program: the
    calendar round trip of [civil_from_days] (Calendar.v); the bounds of
    section [TimeBounds] of Grid.v (every [dayDate] and [hourDate] an
    iteration builds is a fixed point of TimeClip and below 2^53, so the
    Date values are exact integers); in Dst.v, that the zone model with a
    constant offset computes the dates of the constant-offset model, and
    the round trip of LocalTime and UTC, exact except in the gap.

    Witnesses evaluate renders under [EtcIntl] with the local zone UTC
    and a concrete clock, by [vm_compute].  The calendar checks evaluate
    all 146097 days of an era, which is enough because the calendar
    repeats every 400 years; the day loop is a fixed list of fifteen
    offsets and the hour loop a list of [24 - startHour] hours, so the
    functional model needs no fuel.

    Not modelled: the DOM plumbing that carries no data (wrapper
    elements, the fixed "Time (local)" header); the UTF-8 decoding of the
    bytes [URLSearchParams] produces (strings are 8-bit); a local zone
    is given one transition, which is enough for the fifteen days of a
    render (no zone changes offset twice within them); the
    grid theorems of Grid.v use the constant-offset Date model, which Dst.v
    shows to be the zone model without a change of offset; and the zones
    of the IANA database other than [UTC] and [Etc/GMT*] in the concrete
    instance (the theorems hold for any [IntlService]).

    JavaScript numbers are modelled as exact integers [Z]: every number
    the program computes is an integer, and the parser's offsets lose
    precision in JavaScript only beyond 2^53, far outside the range of
    zones the Intl service accepts (Etc/GMT-14 .. Etc/GMT+12); the value
    [-0] that [parseInt("-0")] returns is modelled by [0], which the
    source renders identically ("UTC+0", "Etc/GMT+0"). *)

From stdpp Require Export base list strings sets relations.
From Stdlib Require Export Ascii ZArith Lia.

(** ** Exceptions *)

(** The errors a call of the program can throw: [Intl.DateTimeFormat]
    raises a [RangeError] for a [timeZone] it does not know. *)
Inductive js_error :=
| RangeError (msg : string).

(** A computation that returns a value or throws. *)
Inductive result (A : Type) : Type :=
| Ok (a : A)
| Throw (e : js_error).
Arguments Ok {A} a.
Arguments Throw {A} e.

Definition res_bind {A B} (c : result A) (k : A -> result B) : result B :=
  match c with
  | Ok a => k a
  | Throw e => Throw e
  end.

Declare Scope js_scope.
Delimit Scope js_scope with js.
Notation "'let!' x := c 'in' k" := (res_bind c (fun x => k))
  (at level 10, x name, c at level 100, k at level 200) : js_scope.
Notation "'throw!' e" := (Throw e) (at level 10) : js_scope.
Open Scope js_scope.

(** [xs.forEach(x => ...)] / [xs.map(x => ...)] with a callback that may
    throw: the first exception aborts the traversal. *)
Fixpoint mapM {A B} (f : A -> result B) (xs : list A) : result (list B) :=
  match xs with
  | [] => Ok []
  | x :: xs' => let! y := f x in let! ys := mapM f xs' in Ok (y :: ys)
  end.

(** ** The hint database of the development *)

Create HintDb js discriminated.
Create Rewrite HintDb js_rw.

Lemma res_bind_Ok {A B} (a : A) (k : A -> result B) : res_bind (Ok a) k = k a.
Proof. reflexivity. Qed.

Lemma res_bind_Throw {A B} (e : js_error) (k : A -> result B) :
  res_bind (Throw e) k = Throw e.
Proof. reflexivity. Qed.

#[export] Hint Rewrite @res_bind_Ok @res_bind_Throw : js_rw.

Lemma res_bind_eq_Ok {A B} (c : result A) (k : A -> result B) (b : B) :
  res_bind c k = Ok b <-> exists a, c = Ok a /\ k a = Ok b.
Proof. destruct c; simpl; split; naive_solver. Qed.

(** [mapM] succeeds exactly when the callback succeeds pointwise. *)
Lemma mapM_Ok_iff {A B} (f : A -> result B) xs ys :
  mapM f xs = Ok ys <-> Forall2 (fun x y => f x = Ok y) xs ys.
Proof.
  revert ys; induction xs as [|x xs IH]; intros ys; simpl.
  - split; [intros [= <-]; constructor | intros H; inversion H; done].
  - rewrite res_bind_eq_Ok. setoid_rewrite res_bind_eq_Ok. split.
    + intros (y & Hy & ys' & Hys & [= <-]). constructor; [done | by apply IH].
    + intros H; inversion H as [|? y ? ys' Hy Hys]; subst.
      exists y; split; [done|]. exists ys'; split; [by apply IH | done].
Qed.

Lemma mapM_length {A B} (f : A -> result B) xs ys :
  mapM f xs = Ok ys -> length ys = length xs.
Proof. rewrite mapM_Ok_iff. intros H. symmetry. by eapply Forall2_length. Qed.

(** A traversal throws iff some element makes the callback throw. *)
Lemma mapM_Throw_iff {A B} (f : A -> result B) xs :
  (exists e, mapM f xs = Throw e) <-> (exists x e, x ∈ xs /\ f x = Throw e).
Proof.
  induction xs as [|y xs IH]; simpl.
  - split; [intros [? [=]] | intros (? & ? & Hin & _); by apply elem_of_nil in Hin].
  - destruct (f y) as [b|e] eqn:Hy; simpl.
    + destruct (mapM f xs) as [bs|e'] eqn:Hxs; simpl.
      * split; [intros [? [=]]|].
        intros (x & e & Hin & Hx). apply elem_of_cons in Hin as [->|Hin]; [congruence|].
        destruct (proj2 IH (ex_intro _ x (ex_intro _ e (conj Hin Hx)))) as [? [=]].
      * split; [|by eauto]. intros _.
        destruct (proj1 IH (ex_intro _ e' eq_refl)) as (x & e & Hin & Hx).
        exists x, e. split; [by apply elem_of_cons; right | done].
    + split; [|by eauto]. intros _. exists y, e. split; [apply elem_of_cons; by left | done].
Qed.

(** A traversal whose callback succeeds everywhere maps the values. *)
Lemma mapM_Ok_map {A B} (f : A -> result B) (g : A -> B) (xs : list A) :
  (forall x, x ∈ xs -> f x = Ok (g x)) -> mapM f xs = Ok (g <$> xs).
Proof.
  induction xs as [|x xs IH]; intros Hf; simpl; [done|].
  rewrite (Hf x) by (apply elem_of_cons; by left). simpl.
  rewrite IH; [done|]. intros y Hy. apply Hf, elem_of_cons. by right.
Qed.

(** The exception a traversal throws is one its callback throws. *)
Lemma mapM_Throw_elem {A B} (f : A -> result B) (xs : list A) (e : js_error) :
  mapM f xs = Throw e -> exists x, x ∈ xs /\ f x = Throw e.
Proof.
  induction xs as [|x xs IH]; simpl; [done|].
  destruct (f x) as [b|e'] eqn:Hx; simpl.
  - destruct (mapM f xs) as [bs|e''] eqn:Hxs; simpl; [done|].
    intros [= ->]. destruct (IH eq_refl) as (y & Hy & Hfy).
    exists y. split; [by apply elem_of_cons; right | done].
  - intros [= ->]. exists x. split; [by apply elem_of_cons; left | done].
Qed.

#[export] Hint Resolve mapM_length : js.

(** ** Checking a property of integers on a range by evaluation *)

(** [check_range f n start] tests [f] on [start], ..., [start + n - 1];
    once [vm_compute] shows it [true], [check_range_spec] gives [f] on the
    whole range.  Used for facts of the calendar that hold on each of the
    146097 days of a 400-year era. *)
Fixpoint check_range (f : Z -> bool) (n : nat) (start : Z) : bool :=
  match n with
  | O => true
  | S n' => f start && check_range f n' (Z.succ start)
  end.

Lemma check_range_spec (f : Z -> bool) (n : nat) (start : Z) :
  check_range f n start = true ->
  forall z, (start <= z < start + Z.of_nat n)%Z -> f z = true.
Proof.
  revert start; induction n as [|n IH]; intros start H z Hz; simpl in *; [lia|].
  apply andb_prop in H as [H1 H2]. destruct (Z.eq_dec z start) as [->|]; [done|].
  apply (IH (Z.succ start)); [done | lia].
Qed.

(** ** Tactics *)

(** Case analysis on the boolean tests of the source. *)
Ltac js_case :=
  repeat match goal with
  | |- context [if decide ?P then _ else _] => destruct (decide P)
  | |- context [match ?c with Ok _ => _ | Throw _ => _ end] => destruct c eqn:?
  end.

(** ** Transition systems *)

Section Relations.

Context {A : Type} (R : relation A).

(** A deterministic relation reaches at most one normal form. *)
Lemma rtc_nf_unique :
  (forall x y z, R x y -> R x z -> y = z) ->
  forall x y z, rtc R x y -> rtc R x z -> nf R y -> nf R z -> y = z.
Proof.
  intros Hdet x y z Hy. revert z. induction Hy as [x|x x' y Hxx' Hy IH]; intros z Hz Hny Hnz.
  - destruct Hz as [|x z' z Hxz _]; [done|]. destruct Hny. by exists z'.
  - destruct Hz as [|x z' z Hxz Hz]; [destruct Hnz; by exists x'|].
    rewrite (Hdet _ _ _ Hxx' Hxz) in IH. by apply IH.
Qed.

End Relations.

(** Splits an equation between pairs without reducing its components
    ([injection] normalises them, which is costly on computed records). *)
Ltac pair_inv H :=
  let H1 := fresh H "_1" in let H2 := fresh H "_2" in
  pose proof (f_equal fst H) as H1; pose proof (f_equal snd H) as H2;
  cbn [fst snd] in H1, H2; clear H.
