(* ===== verification/JsString.v ===== *)
(** * ECMAScript string built-ins called by [src/script.js]

    The parser [getTimezones] and the helpers of [renderTable] call
    [String.prototype.trim], [split] with a one-character separator,
    [includes], [padStart], [replace] with a global one-character pattern,
    [RegExp.prototype.test] with [/^[+-]?\d+$/], the global [parseInt] and
    the number-to-string conversion of template literals.  This file models
    each of them as a function on Stdlib [string]s, following the
    algorithms of ECMA-262 restricted to one-character separators and to
    code points below 256, and proves the laws the parser relies on: trim
    removes exactly the surrounding whitespace, [split] and [join] are
    inverse, and [parseInt] reads back the decimal rendering of every
    integer. *)

From S2P Require Import Prelude.

Local Open Scope Z_scope.

(** ** Characters *)

(** ECMA-262 WhiteSpace and LineTerminator code points below 256: TAB,
    LF, VT, FF, CR, SPACE and NO-BREAK SPACE. *)
Definition is_js_ws (c : ascii) : bool :=
  bool_decide (nat_of_ascii c ∈ [9; 10; 11; 12; 13; 32; 160]%nat).

(** The value of a character as a digit of radix up to 36 ([0-9a-zA-Z]),
    as the [parseInt] algorithm reads it. *)
Definition digit_value (c : ascii) : option Z :=
  let n := Z.of_nat (nat_of_ascii c) in
  if (48 <=? n) && (n <=? 57) then Some (n - 48)
  else if (97 <=? n) && (n <=? 122) then Some (n - 87)
  else if (65 <=? n) && (n <=? 90) then Some (n - 55)
  else None.

Definition radix_digit (radix : Z) (c : ascii) : option Z :=
  match digit_value c with
  | Some d => if d <? radix then Some d else None
  | None => None
  end.

(** The class [\d] of regular expressions: an ASCII decimal digit. *)
Definition is_dec_digit (c : ascii) : bool := bool_decide (is_Some (radix_digit 10 c)).

(** ** [String.prototype.trim] *)

Fixpoint trim_start (s : string) : string :=
  match s with
  | EmptyString => EmptyString
  | String c r => if is_js_ws c then trim_start r else s
  end.

Fixpoint trim_end (s : string) : string :=
  match s with
  | EmptyString => EmptyString
  | String c r =>
      let r' := trim_end r in
      if is_js_ws c && bool_decide (r' = EmptyString) then EmptyString else String c r'
  end.

(** TrimString(S, start+end). *)
Definition js_trim (s : string) : string := trim_end (trim_start s).

(** A string made only of whitespace. *)
Fixpoint all_ws (s : string) : bool :=
  match s with
  | EmptyString => true
  | String c r => is_js_ws c && all_ws r
  end.

(** ** [String.prototype.includes] and [split] with one character *)

Fixpoint js_includes (c : ascii) (s : string) : bool :=
  match s with
  | EmptyString => false
  | String d r => bool_decide (d = c) || js_includes c r
  end.

(** [s.split(sep)] for a one-character [sep]: the pieces between the
    occurrences of [sep], always at least one ([""] for the empty string). *)
Fixpoint js_split (sep : ascii) (s : string) : list string :=
  match s with
  | EmptyString => [EmptyString]
  | String c r =>
      let parts := js_split sep r in
      if decide (c = sep) then EmptyString :: parts
      else match parts with
           | p :: ps => String c p :: ps
           | [] => [String c EmptyString]
           end
  end.

(** [parts.join(sep)]. *)
Fixpoint js_join (sep : ascii) (parts : list string) : string :=
  match parts with
  | [] => EmptyString
  | [p] => p
  | p :: ps => p +:+ String sep (js_join sep ps)
  end.

Fixpoint count_char (c : ascii) (s : string) : nat :=
  match s with
  | EmptyString => 0
  | String d r => (if decide (d = c) then 1 else 0) + count_char c r
  end.

(** [s.startsWith(p) ? s.slice(p.length) : undefined]. *)
Fixpoint strip_prefix (p s : string) : option string :=
  match p, s with
  | EmptyString, _ => Some s
  | String c p', String d s' => if decide (c = d) then strip_prefix p' s' else None
  | String _ _, EmptyString => None
  end.

Lemma strip_prefix_app (p s : string) : strip_prefix p (p +:+ s) = Some s.
Proof. induction p as [|c p IH]; simpl; [done|]. by rewrite decide_True. Qed.

(** ** [padStart] and [replace] *)

Fixpoint str_repeat (n : nat) (c : ascii) : string :=
  match n with
  | O => EmptyString
  | S n' => String c (str_repeat n' c)
  end.

(** [s.padStart(n, fill)] with a one-character [fill]. *)
Definition js_padStart (n : nat) (fill : ascii) (s : string) : string :=
  str_repeat (n - String.length s)%nat fill +:+ s.

(** [s.replace(/a/g, b)] for single characters [a] and [b]. *)
Fixpoint replace_all (a b : ascii) (s : string) : string :=
  match s with
  | EmptyString => EmptyString
  | String c r => String (if decide (c = a) then b else c) (replace_all a b r)
  end.

(** ** The regular expression [/^[+-]?\d+$/] *)

Fixpoint all_dec_digits (s : string) : bool :=
  match s with
  | EmptyString => true
  | String c r => is_dec_digit c && all_dec_digits r
  end.

Definition is_int_literal (s : string) : bool :=
  match s with
  | EmptyString => false
  | String "+" r | String "-" r => negb (bool_decide (r = EmptyString)) && all_dec_digits r
  | _ => all_dec_digits s
  end.

(** ** [parseInt(string)] (ECMA-262 19.2.5, radix undefined) *)

(** The longest prefix of digits of the radix, as their values. *)
Fixpoint take_digits (radix : Z) (s : string) : list Z :=
  match s with
  | EmptyString => []
  | String c r =>
      match radix_digit radix c with
      | Some d => d :: take_digits radix r
      | None => []
      end
  end.

Definition digits_value (radix : Z) (ds : list Z) : Z :=
  fold_left (fun acc d => acc * radix + d) ds 0.

(** Step 4 of the algorithm: one leading sign. *)
Definition parse_sign (s : string) : Z * string :=
  match s with
  | String "-" r => (-1, r)
  | String "+" r => (1, r)
  | _ => (1, s)
  end.

(** Steps 6-11 with radix undefined: a [0x]/[0X] prefix selects radix 16,
    radix 10 otherwise. *)
Definition parse_radix (s : string) : Z * string :=
  match s with
  | String "0" (String "x" r) | String "0" (String "X" r) => (16, r)
  | _ => (10, s)
  end.

(** [None] is [NaN].  Leading whitespace is skipped, the sign and the
    radix prefix are read, and the longest digit prefix is converted. *)
Definition parseInt (s : string) : option Z :=
  let '(sign, s2) := parse_sign (trim_start s) in
  let '(radix, s3) := parse_radix s2 in
  match take_digits radix s3 with
  | [] => None
  | ds => Some (sign * digits_value radix ds)
  end.

(** ** Number::toString for integers *)

(** Decimal digits of a natural number, least significant first; the fuel
    [Z.log2 n + 1] bounds the number of decimal digits. *)
Fixpoint digits_rev (fuel : nat) (n : Z) : list Z :=
  match fuel with
  | O => []
  | S f => if n <? 10 then [n] else n mod 10 :: digits_rev f (n / 10)
  end.

Definition dec_digits (n : Z) : list Z := rev (digits_rev (S (Z.to_nat (Z.log2 n))) n).

Definition digit_char (d : Z) : ascii := ascii_of_N (Z.to_N (48 + d)).

Fixpoint string_of_digits (ds : list Z) : string :=
  match ds with
  | [] => EmptyString
  | d :: ds' => String (digit_char d) (string_of_digits ds')
  end.

(** [String(z)] and [`${z}`] for an integral number [z]. *)
Definition js_number_to_string (z : Z) : string :=
  if z <? 0 then String "-" (string_of_digits (dec_digits (- z)))
  else string_of_digits (dec_digits z).

(** ** Laws of [trim] *)

Section Trim.

Lemma trim_start_ws (w : string) : all_ws w = true -> trim_start w = EmptyString.
Proof. induction w as [|c w IH]; simpl; [done|]. intros [-> ?]%andb_prop. by apply IH. Qed.

Lemma trim_end_ws (w : string) : all_ws w = true -> trim_end w = EmptyString.
Proof.
  induction w as [|c w IH]; simpl; [done|]. intros [-> Hw]%andb_prop.
  rewrite (IH Hw). done.
Qed.

Lemma trim_start_app_ws (w s : string) :
  all_ws w = true -> trim_start (w +:+ s) = trim_start s.
Proof. induction w as [|c w IH]; simpl; [done|]. intros [-> ?]%andb_prop. by apply IH. Qed.

Lemma trim_end_app_ws (s w : string) :
  all_ws w = true -> trim_end (s +:+ w) = trim_end s.
Proof.
  intros Hw. induction s as [|c s IH]; simpl; [by apply trim_end_ws|]. by rewrite IH.
Qed.

Lemma trim_end_start_app_ws (s w : string) :
  all_ws w = true -> trim_end (trim_start (s +:+ w)) = trim_end (trim_start s).
Proof.
  intros Hw. induction s as [|c s IH]; simpl.
  - by rewrite trim_start_ws.
  - destruct (is_js_ws c) eqn:Hc; [done|].
    change (String c (s +:+ w)) with (String c s +:+ w). by apply trim_end_app_ws.
Qed.

(** Whitespace around a token is insignificant. *)
Lemma js_trim_pad (w1 s w2 : string) :
  all_ws w1 = true -> all_ws w2 = true -> js_trim (w1 +:+ s +:+ w2) = js_trim s.
Proof.
  intros H1 H2. unfold js_trim.
  rewrite trim_start_app_ws by done. by apply trim_end_start_app_ws.
Qed.

(** A string that neither starts nor ends with whitespace is its own trim. *)
Lemma trim_end_no_ws (s : string) :
  (forall c r, s = r +:+ String c EmptyString -> is_js_ws c = false) ->
  trim_end s = s.
Proof.
  induction s as [|c s IH]; intros Hlast; simpl; [done|].
  rewrite IH.
  - destruct s as [|c' s']; [|by rewrite andb_false_r].
    by rewrite (Hlast c EmptyString eq_refl).
  - intros c' r ->. by apply (Hlast c' (String c r)).
Qed.

End Trim.

(** ** Laws of [split] and [join] *)

Section Split.

Context (sep : ascii).

Lemma js_split_not_nil (s : string) : js_split sep s <> [].
Proof.
  induction s as [|c s IH]; simpl; [done|].
  case_decide; [done|]. by destruct (js_split sep s).
Qed.

Lemma js_join_cons_char (c : ascii) (p : string) (ps : list string) :
  js_join sep (String c p :: ps) = String c (js_join sep (p :: ps)).
Proof. by destruct ps. Qed.

(** Joining the pieces of a split gives the string back. *)
Lemma js_join_split (s : string) : js_join sep (js_split sep s) = s.
Proof.
  induction s as [|c s IH]; simpl; [done|].
  pose proof (js_split_not_nil s) as Hne.
  case_decide; subst.
  - destruct (js_split sep s) as [|p ps]; [done|].
    change (js_join sep (EmptyString :: p :: ps)) with (String sep (js_join sep (p :: ps))).
    by rewrite IH.
  - destruct (js_split sep s) as [|p ps]; [done|]. by rewrite js_join_cons_char, IH.
Qed.

(** No piece contains the separator. *)
Lemma js_split_pieces (s : string) :
  Forall (fun p => js_includes sep p = false) (js_split sep s).
Proof.
  induction s as [|c s IH]; simpl; [by repeat constructor|].
  case_decide; [by constructor|].
  destruct (js_split sep s) as [|p ps]; [by repeat constructor; simpl; case_bool_decide|].
  apply Forall_cons in IH as [Hp Hps]. constructor; [|done].
  simpl. rewrite Hp, orb_false_r. by apply bool_decide_eq_false.
Qed.

(** One piece more than there are separators. *)
Lemma js_split_length (s : string) : length (js_split sep s) = S (count_char sep s).
Proof.
  induction s as [|c s IH]; simpl; [done|].
  pose proof (js_split_not_nil s).
  case_decide; simpl; [by rewrite IH|].
  destruct (js_split sep s); simpl in *; [done|]. by rewrite IH.
Qed.

Lemma js_split_free (p : string) : js_includes sep p = false -> js_split sep p = [p].
Proof.
  induction p as [|c p IH]; simpl; [done|].
  intros [Hc Hp]%orb_false_elim. apply bool_decide_eq_false in Hc.
  rewrite (IH Hp). by case_decide.
Qed.

Lemma js_split_app_sep (p r : string) :
  js_includes sep p = false -> js_split sep (p +:+ String sep r) = p :: js_split sep r.
Proof.
  induction p as [|c p IH]; simpl.
  - intros _. by case_decide.
  - intros [Hc Hp]%orb_false_elim. apply bool_decide_eq_false in Hc.
    rewrite (IH Hp). by case_decide.
Qed.

(** Splitting a join of separator-free pieces gives the pieces back. *)
Lemma js_split_join (ps : list string) :
  ps <> [] -> Forall (fun p => js_includes sep p = false) ps ->
  js_split sep (js_join sep ps) = ps.
Proof.
  induction ps as [|p ps IH]; intros Hne Hps; [done|].
  apply Forall_cons in Hps as [Hp Hps].
  destruct ps as [|p' ps'].
  - by apply js_split_free.
  - change (js_join sep (p :: p' :: ps')) with (p +:+ String sep (js_join sep (p' :: ps'))).
    rewrite js_split_app_sep by done. by rewrite IH.
Qed.

Lemma js_includes_app (c : ascii) (s1 s2 : string) :
  js_includes c (s1 +:+ s2) = js_includes c s1 || js_includes c s2.
Proof. induction s1 as [|d s1 IH]; simpl; [done|]. by rewrite IH, orb_assoc. Qed.

(** A join of two pieces or more contains the separator. *)
Lemma js_includes_join (p1 p2 : string) (ps : list string) :
  js_includes sep (js_join sep (p1 :: p2 :: ps)) = true.
Proof.
  change (js_join sep (p1 :: p2 :: ps)) with (p1 +:+ String sep (js_join sep (p2 :: ps))).
  rewrite js_includes_app. simpl. rewrite bool_decide_true by done. by rewrite orb_true_r.
Qed.

End Split.

(** ** Decimal digits and [parseInt] *)

Section Decimal.

Definition is_digit_val (d : Z) : Prop := 0 <= d < 10.

Lemma digit_enum (d : Z) : is_digit_val d ->
  d = 0 \/ d = 1 \/ d = 2 \/ d = 3 \/ d = 4 \/ d = 5 \/ d = 6 \/ d = 7 \/ d = 8 \/ d = 9.
Proof.
  intros [H0 H1]. rewrite <- (Z2Nat.id d H0). assert (Z.to_nat d < 10)%nat as Hn by lia.
  generalize dependent (Z.to_nat d). intros n Hn.
  do 10 (destruct n as [|n]; [repeat (first [left; reflexivity | right]); reflexivity|]). lia.
Qed.

(** Case analysis on the ten values of a decimal digit. *)
Local Ltac digit_cases d :=
  let H := fresh in
  match goal with Hd : is_digit_val d |- _ => pose proof (digit_enum d Hd) as H end;
  destruct_or! H; subst d.

Lemma digits_value_snoc (r : Z) (ds : list Z) (d : Z) :
  digits_value r (ds ++ [d]) = digits_value r ds * r + d.
Proof. unfold digits_value. by rewrite fold_left_app. Qed.

Lemma digits_rev_spec (fuel : nat) (n : Z) :
  0 <= n < 10 ^ Z.of_nat fuel ->
  digits_value 10 (rev (digits_rev fuel n)) = n /\ Forall is_digit_val (digits_rev fuel n).
Proof.
  revert n; induction fuel as [|f IH]; intros n Hn; simpl.
  - replace n with 0 by (simpl in Hn; lia). split; [done | constructor].
  - destruct (Z.ltb_spec n 10).
    + split; [unfold digits_value; simpl; lia | repeat constructor; unfold is_digit_val; lia].
    + rewrite Nat2Z.inj_succ, Z.pow_succ_r in Hn by lia.
      destruct (IH (n / 10)) as [Hv Hd].
      { split; [apply Z.div_pos | apply Z.div_lt_upper_bound]; lia. }
      simpl. rewrite digits_value_snoc, Hv. split.
      * pose proof (Z.div_mod n 10). lia.
      * constructor; [|done]. apply Z.mod_pos_bound. lia.
Qed.

(** [dec_digits] renders a natural number with enough fuel: its digits
    read back to the number. *)
Lemma dec_digits_spec (n : Z) :
  0 <= n ->
  digits_value 10 (dec_digits n) = n /\ Forall is_digit_val (dec_digits n) /\ dec_digits n <> [].
Proof.
  intros Hn. unfold dec_digits.
  set (fuel := S (Z.to_nat (Z.log2 n))).
  assert (Hb : n < 10 ^ Z.of_nat fuel).
  { subst fuel. rewrite Nat2Z.inj_succ, Z2Nat.id by apply Z.log2_nonneg.
    apply Z.lt_le_trans with (2 ^ Z.succ (Z.log2 n)).
    - destruct (Z.eq_dec n 0) as [->|]; [done|]. apply Z.log2_spec. lia.
    - apply Z.pow_le_mono_l. pose proof (Z.log2_nonneg n). lia. }
  destruct (digits_rev_spec fuel n) as [Hv Hd]; [lia|].
  split; [done|]. split; [by apply Forall_rev|].
  subst fuel. simpl. destruct (n <? 10); simpl; [done|]. intros []%app_eq_nil; done.
Qed.

Lemma radix_digit_char (d : Z) : is_digit_val d -> radix_digit 10 (digit_char d) = Some d.
Proof. intros Hd. digit_cases d; reflexivity. Qed.

Lemma take_digits_decimal (ds : list Z) :
  Forall is_digit_val ds -> take_digits 10 (string_of_digits ds) = ds.
Proof.
  induction ds as [|d ds IH]; intros Hds; [done|].
  apply Forall_cons in Hds as [Hd Hds]. simpl. rewrite radix_digit_char by done.
  by rewrite IH.
Qed.

Lemma all_dec_digits_decimal (ds : list Z) :
  Forall is_digit_val ds -> all_dec_digits (string_of_digits ds) = true.
Proof.
  induction ds as [|d ds IH]; intros Hds; [done|].
  apply Forall_cons in Hds as [Hd Hds]. simpl. rewrite IH by done.
  unfold is_dec_digit. rewrite radix_digit_char by done. done.
Qed.

(** A decimal rendering starts with a digit: no whitespace, sign or
    radix prefix is read from it. *)
Lemma parse_decimal_head (d : Z) (ds : list Z) :
  is_digit_val d -> Forall is_digit_val ds ->
  trim_start (string_of_digits (d :: ds)) = string_of_digits (d :: ds) /\
  parse_sign (string_of_digits (d :: ds)) = (1, string_of_digits (d :: ds)) /\
  parse_radix (string_of_digits (d :: ds)) = (10, string_of_digits (d :: ds)) /\
  is_int_literal (string_of_digits (d :: ds)) = all_dec_digits (string_of_digits (d :: ds)).
Proof.
  intros Hd Hds. simpl string_of_digits. digit_cases d.
  1: destruct ds as [|d2 ds]; [split_and!; reflexivity|].
  1: apply Forall_cons in Hds as [Hd2 _]; digit_cases d2.
  all: split_and!; reflexivity.
Qed.

Lemma parseInt_sign_digits (sign : Z) (s : string) (ds : list Z) :
  ds <> [] -> Forall is_digit_val ds ->
  parse_sign s = (sign, string_of_digits ds) -> trim_start s = s ->
  parseInt s = Some (sign * digits_value 10 ds).
Proof.
  intros Hne Hds Hsign Htrim. destruct ds as [|d ds']; [done|].
  pose proof Hds as Hds'. apply Forall_cons in Hds' as [Hd Htl].
  destruct (parse_decimal_head d ds' Hd Htl) as (_ & _ & Hradix & _).
  unfold parseInt. rewrite Htrim, Hsign, Hradix, take_digits_decimal by done. done.
Qed.

(** [parseInt] reads back the decimal rendering of every integer. *)
Lemma parseInt_number_to_string (z : Z) : parseInt (js_number_to_string z) = Some z.
Proof.
  unfold js_number_to_string. destruct (Z.ltb_spec z 0).
  - destruct (dec_digits_spec (- z)) as (Hv & Hds & Hne); [lia|].
    rewrite (parseInt_sign_digits (-1) (String "-" _) _ Hne Hds eq_refl eq_refl), Hv. f_equal; lia.
  - destruct (dec_digits_spec z) as (Hv & Hds & Hne); [lia|].
    destruct (dec_digits z) as [|d ds] eqn:E; [done|].
    pose proof Hds as Hds'. apply Forall_cons in Hds' as [Hd Htl].
    destruct (parse_decimal_head d ds Hd Htl) as (Ht & Hs & _).
    rewrite (parseInt_sign_digits 1 _ _ Hne Hds Hs Ht), Hv. f_equal; lia.
Qed.

(** The same with an explicit [+] before a non-negative integer. *)
Lemma parseInt_plus_number_to_string (z : Z) :
  0 <= z -> parseInt (String "+" (js_number_to_string z)) = Some z.
Proof.
  intros Hz. unfold js_number_to_string. destruct (Z.ltb_spec z 0); [lia|].
  destruct (dec_digits_spec z) as (Hv & Hds & Hne); [lia|].
  rewrite (parseInt_sign_digits 1 (String "+" _) _ Hne Hds eq_refl eq_refl), Hv. f_equal; lia.
Qed.

(** Every rendering of an integer, and every [+] rendering of a
    non-negative one, matches [/^[+-]?\d+$/]. *)
Lemma is_int_literal_number_to_string (z : Z) :
  is_int_literal (js_number_to_string z) = true /\
  (0 <= z -> is_int_literal (String "+" (js_number_to_string z)) = true).
Proof.
  unfold js_number_to_string. destruct (Z.ltb_spec z 0).
  - destruct (dec_digits_spec (- z)) as (_ & Hds & Hne); [lia|]. split; [|lia].
    destruct (dec_digits (- z)); [done|]. simpl. by rewrite <- all_dec_digits_decimal with (ds := z0 :: l).
  - destruct (dec_digits_spec z) as (_ & Hds & Hne); [lia|].
    destruct (dec_digits z) as [|d ds]; [done|].
    pose proof (all_dec_digits_decimal _ Hds) as Hall.
    apply Forall_cons in Hds as [Hd Htl].
    destruct (parse_decimal_head d ds Hd Htl) as (_ & _ & _ & Hlit).
    split; [by rewrite Hlit|]. intros _. simpl. by rewrite <- Hall.
Qed.

End Decimal.

(** ** JavaScript numbers of the program *)

(** The numbers the program computes are integers or [NaN] (the result of
    [parseInt] on a string with no digit): [None] is [NaN]. *)
Abbreviation js_num := (option Z).

(** [String(n)] / [`${n}`]. *)
Definition num_to_string (n : js_num) : string :=
  match n with
  | Some z => js_number_to_string z
  | None => "NaN"
  end.

(** Unary minus. *)
Definition num_neg (n : js_num) : js_num := Z.opp <$> n.

(** [n >= 0]: false for [NaN]. *)
Definition num_ge0 (n : js_num) : bool :=
  match n with
  | Some z => 0 <=? z
  | None => false
  end.

(** [`${n >= 0 ? '+' : ''}${n}`]: an integer with its sign always written. *)
Definition signed_string (n : js_num) : string :=
  (if num_ge0 n then "+" else "") +:+ num_to_string n.

(** [parseInt] reads back a signed rendering. *)
Lemma parseInt_signed_string (z : Z) : parseInt (signed_string (Some z)) = Some z.
Proof.
  unfold signed_string; simpl. destruct (Z.leb_spec 0 z).
  - by apply parseInt_plus_number_to_string.
  - apply parseInt_number_to_string.
Qed.

Lemma is_int_literal_signed_string (z : Z) : is_int_literal (signed_string (Some z)) = true.
Proof.
  unfold signed_string; simpl. pose proof (is_int_literal_number_to_string z) as [H1 H2].
  destruct (Z.leb_spec 0 z); [by apply H2 | done].
Qed.

(** ** Character classes *)

Section CharClass.

(** Every character of the string satisfies [p]. *)
Fixpoint str_forall (p : ascii -> bool) (s : string) : bool :=
  match s with
  | EmptyString => true
  | String c r => p c && str_forall p r
  end.

Lemma str_forall_impl (p q : ascii -> bool) (s : string) :
  (forall c, p c = true -> q c = true) -> str_forall p s = true -> str_forall q s = true.
Proof.
  intros Hpq. induction s as [|c s IH]; simpl; [done|].
  intros [Hc Hs]%andb_prop. by rewrite Hpq, IH.
Qed.

Lemma trim_no_ws (s : string) :
  str_forall (fun c => negb (is_js_ws c)) s = true -> js_trim s = s.
Proof.
  intros Hs. unfold js_trim.
  assert (Hstart : trim_start s = s).
  { destruct s as [|c r]; simpl in *; [done|].
    apply andb_prop in Hs as [Hc _]. by destruct (is_js_ws c). }
  rewrite Hstart. clear Hstart. induction s as [|c s IH]; simpl in *; [done|].
  apply andb_prop in Hs as [Hc Hs]. rewrite IH by done. by destruct (is_js_ws c).
Qed.

Lemma includes_forall (c : ascii) (s : string) :
  str_forall (fun d => negb (bool_decide (d = c))) s = true -> js_includes c s = false.
Proof.
  induction s as [|d s IH]; simpl; [done|].
  intros [Hd Hs]%andb_prop. rewrite IH by done. by destruct (bool_decide (d = c)).
Qed.

(** The characters of an integer literal: digits and signs. *)
Definition int_char (c : ascii) : bool := is_dec_digit c || bool_decide (c ∈ ["+"; "-"]%char).

Lemma all_dec_digits_forall (s : string) : all_dec_digits s = str_forall is_dec_digit s.
Proof. induction s as [|c s IH]; simpl; [done|]. by rewrite IH. Qed.

(** The 256 characters, for checks by evaluation. *)
Definition all_chars : list ascii := ascii_of_nat <$> seq 0 256.

Lemma in_all_chars (c : ascii) : c ∈ all_chars.
Proof.
  apply list_elem_of_fmap. exists (nat_of_ascii c). rewrite ascii_nat_embedding.
  split; [done|]. apply list_elem_of_In, in_seq. pose proof (nat_ascii_bounded c). lia.
Qed.

Definition digit_chars : list ascii := ["0"; "1"; "2"; "3"; "4"; "5"; "6"; "7"; "8"; "9"]%char.

(** A property of characters decided by a boolean test holds of every
    character once the test passes on the 256 of them. *)
Lemma char_check (t : ascii -> bool) :
  forallb t all_chars = true -> forall c, t c = true.
Proof.
  intros Hall c. rewrite forallb_forall in Hall. apply Hall, list_elem_of_In, in_all_chars.
Qed.

(** A decimal digit is one of the ten characters [0-9]. *)
Lemma dec_digit_chars (c : ascii) : is_dec_digit c = true -> c ∈ digit_chars.
Proof.
  intros Hc.
  assert (Hall : forallb (fun c => implb (is_dec_digit c) (bool_decide (c ∈ digit_chars)))
                  all_chars = true) by (vm_compute; reflexivity).
  pose proof (char_check _ Hall c) as H; cbv beta in H.
  rewrite Hc in H. simpl in H. by apply bool_decide_eq_true in H.
Qed.

(** The characters of an integer literal are neither whitespace nor one
    of the separators [:], [,] and [/] of the parser. *)
Lemma int_char_plain (c : ascii) :
  int_char c = true ->
  is_js_ws c = false /\ bool_decide (c = ":"%char) = false /\ bool_decide (c = ","%char) = false /\
  bool_decide (c = "/"%char) = false.
Proof.
  intros Hc.
  assert (Hall : forallb (fun c => implb (int_char c)
                  (negb (is_js_ws c || bool_decide (c = ":"%char) || bool_decide (c = ","%char) ||
                         bool_decide (c = "/"%char)))) all_chars = true) by (vm_compute; reflexivity).
  pose proof (char_check _ Hall c) as H; cbv beta in H.
  rewrite Hc in H. simpl in H.
  rewrite negb_true_iff, !orb_false_iff in H. destruct H as [[[H1 H2] H3] H4]. by split_and!.
Qed.

(** Case analysis on a character known to be a decimal digit. *)
Local Ltac dec_char_cases c :=
  match goal with
  | H : is_dec_digit c = true |- _ =>
      let Hin := fresh in
      pose proof (dec_digit_chars c H) as Hin; unfold digit_chars in Hin;
      rewrite !elem_of_cons, elem_of_nil in Hin; destruct_or! Hin; try done; subst c
  end.

(** A non-empty run of digits is read by [parseInt] as a decimal number:
    it has no whitespace, sign or radix prefix, and its first character
    is a digit. *)
Lemma parse_digit_run (r : string) :
  r <> EmptyString -> all_dec_digits r = true ->
  trim_start r = r /\ parse_sign r = (1, r) /\ parse_radix r = (10, r) /\
  take_digits 10 r <> [].
Proof.
  intros Hne Hr. destruct r as [|c r']; [done|].
  cbn [all_dec_digits] in Hr. apply andb_prop in Hr as [Hc Hr'].
  dec_char_cases c; try (split_and!; done).
  destruct r' as [|c2 r'']; [split_and!; done|].
  cbn [all_dec_digits] in Hr'. apply andb_prop in Hr' as [Hc2 _]. dec_char_cases c2; split_and!; done.
Qed.

(** A string that does not start with a sign is a literal when it is a
    run of digits. *)
Lemma is_int_literal_unsigned (c : ascii) (r : string) :
  c <> "+"%char -> c <> "-"%char -> is_int_literal (String c r) = all_dec_digits (String c r).
Proof. intros H1 H2. destruct c as [[] [] [] [] [] [] [] []]; done. Qed.

Lemma int_literal_chars (s : string) : is_int_literal s = true -> str_forall int_char s = true.
Proof.
  assert (Hd : forall r, all_dec_digits r = true -> str_forall int_char r = true).
  { intros r. rewrite all_dec_digits_forall. apply str_forall_impl.
    intros c Hc. unfold int_char. by rewrite Hc. }
  destruct s as [|c r]; [done|].
  destruct (decide (c ∈ ["+"; "-"]%char)) as [Hin|Hnin].
  - rewrite !elem_of_cons, elem_of_nil in Hin. destruct_or! Hin; try done; subst c;
      cbn [is_int_literal]; intros [_ Hr]%andb_prop; simpl; by rewrite Hd.
  - rewrite is_int_literal_unsigned by set_solver. apply Hd.
Qed.

(** An integer literal is its own trim and holds no [:], [,] or [/]. *)
Lemma int_literal_plain (s : string) :
  is_int_literal s = true ->
  js_trim s = s /\ js_includes ":" s = false /\ js_includes "," s = false /\
  js_includes "/" s = false.
Proof.
  intros Hs%int_literal_chars.
  split_and!; [apply trim_no_ws | apply includes_forall.. ]; revert Hs; apply str_forall_impl;
    intros c Hc; apply int_char_plain in Hc as (H1 & H2 & H3 & H4);
    by rewrite ?H1, ?H2, ?H3, ?H4.
Qed.

(** [parseInt] never returns [NaN] on a string the regular expression
    [/^[+-]?\d+$/] accepts. *)
Lemma parseInt_int_literal (s : string) : is_int_literal s = true -> is_Some (parseInt s).
Proof.
  assert (Hrun : forall sign r t, r <> EmptyString -> all_dec_digits r = true ->
            trim_start t = t -> parse_sign t = (sign, r) -> is_Some (parseInt t)).
  { intros sign r t Hne Hr Ht Hsign. destruct (parse_digit_run r Hne Hr) as (_ & _ & Hrad & Htake).
    unfold parseInt. rewrite Ht, Hsign, Hrad. by destruct (take_digits 10 r). }
  destruct s as [|c r]; [done|].
  destruct (decide (c ∈ ["+"; "-"]%char)) as [Hin|Hnin].
  - rewrite !elem_of_cons, elem_of_nil in Hin. destruct_or! Hin; try done; subst c;
      cbn [is_int_literal]; intros [Hne%negb_true_iff%bool_decide_eq_false Hr]%andb_prop; by eapply Hrun.
  - rewrite is_int_literal_unsigned by set_solver. intros Hs.
    destruct (parse_digit_run (String c r)) as (Ht & Hsign & _); [done|done|].
    by apply (Hrun 1 (String c r)).
Qed.

End CharClass.
