(* ===== verification/Parser.v ===== *)
(** * The specifier parser [getTimezones] ([src/script.js], lines 1-45)

    [getTimezones] reads the [tz] query parameter, splits it on commas and
    maps every token to a column descriptor
    [{ timezone, customLabel, isPureOffset }]; without a parameter it
    returns four fixed zones.  The module [TzParser] models the descriptor as
    a record, the callback of [map] as [parse_token], and the function as
    [getTimezones] over the parameter value ([None] when [params.get('tz')]
    is [null]).  [getFriendlyLocation] (lines 87-93), which derives the
    header text of a column without a label, is modelled here too.

    The theorems state the behaviour of the parser on every branch: an
    integer token becomes the fixed-offset zone [Etc/GMT] with the inverted
    sign and, without a label, the label [UTC+n]; a label is the text
    between the first and the second colon, and an empty label counts as
    none; every comma-separated token yields exactly one column, parsed in
    isolation; whitespace around a token does not matter. *)

From S2P Require Import Prelude JsString.

Local Open Scope Z_scope.

Module TzParser.

(** ** Data *)

(** A column descriptor.  [customLabel] is [null] ([None]) or a string. *)
Record tz_obj := mk_tz_obj {
  timezone : string;
  customLabel : option string;
  isPureOffset : bool
}.

#[export] Instance tz_obj_eq_dec : EqDecision tz_obj.
Proof. solve_decision. Defined.

(** JavaScript truthiness of [customLabel] (and of [tzParam]): [null] and
    [""] are falsy. *)
Definition truthy (v : option string) : bool :=
  match v with
  | Some s => negb (bool_decide (s = ""))
  | None => false
  end.

(** ** Operations *)

(** Line 15: [[timezone, customLabel] = trimmed.split(':').map(s => s.trim())].
    The destructuring binds the first piece and the second one, and drops
    the others; [split] returns at least one piece, so the default of [hd]
    is never used. *)
Definition split_label (trimmed : string) : string * option string :=
  let pieces := js_trim <$> js_split ":" trimmed in
  (hd "" pieces, head (tail pieces)).

(** Lines 22-23: [`Etc/GMT${ianaOffset >= 0 ? '+' : ''}${ianaOffset}`]. *)
Definition etc_gmt (ianaOffset : js_num) : string := "Etc/GMT" +:+ signed_string ianaOffset.

(** Line 27: [`UTC${offset >= 0 ? '+' : ''}${offset}`]. *)
Definition utc_label (offset : js_num) : string := "UTC" +:+ signed_string offset.

(** Lines 10-16: the zone part and the label of a trimmed token. *)
Definition zone_and_label (trimmed : string) : string * option string :=
  if js_includes ":" trimmed then split_label trimmed else (trimmed, None).

(** The callback of [tzParam.split(',').map(tz => ...)], lines 7-36. *)
Definition parse_token (tz : string) : tz_obj :=
  let trimmed := js_trim tz in
  let '(timezone, customLabel) := zone_and_label trimmed in
  if is_int_literal timezone then
    let offset := parseInt timezone in
    let ianaOffset := num_neg offset in
    let ianaTimezone := etc_gmt ianaOffset in
    if negb (truthy customLabel) then
      {| timezone := ianaTimezone; customLabel := Some (utc_label offset); isPureOffset := true |}
    else {| timezone := ianaTimezone; customLabel := customLabel; isPureOffset := false |}
  else {| timezone := timezone; customLabel := customLabel; isPureOffset := false |}.

(** Lines 39-44. *)
Definition default_timezones : list tz_obj :=
  [ {| timezone := "Europe/London"; customLabel := None; isPureOffset := false |};
    {| timezone := "America/New_York"; customLabel := None; isPureOffset := false |};
    {| timezone := "America/Chicago"; customLabel := None; isPureOffset := false |};
    {| timezone := "America/Los_Angeles"; customLabel := None; isPureOffset := false |} ].

(** [getTimezones], given the value of [params.get('tz')] (lines 3-4). *)
Definition getTimezones (tzParam : option string) : list tz_obj :=
  match tzParam with
  | Some s => if truthy tzParam then parse_token <$> js_split "," s else default_timezones
  | None => default_timezones
  end.

(** [getFriendlyLocation], lines 87-93: the last [/]-separated part with
    underscores turned into spaces, or the whole name when it has no [/]. *)
Definition getFriendlyLocation (timezone : string) : string :=
  let parts := js_split "/" timezone in
  if (1 <? length parts)%nat then replace_all "_" " " (List.last parts "")
  else timezone.

(** ** Specification *)

(** The UTC offset in hours that the IANA database gives to a zone of its
    [Etc] area: [Etc/GMT+n] is [n] hours behind UTC (the POSIX sign
    convention), so its offset is [-n]. *)
Definition etc_zone_utc_offset (zone : string) : option Z :=
  match strip_prefix "Etc/GMT" zone with
  | Some rest => if is_int_literal rest then Z.opp <$> parseInt rest else None
  | None => None
  end.

(** The invariant of a column (spec section 3): a pure-offset column has
    a derived label, [UTC+n] for the same integer [n] whose inverse names
    its zone, never [NaN]. *)
Definition tz_wf (c : tz_obj) : Prop :=
  isPureOffset c = true ->
  exists n : Z, timezone c = etc_gmt (Some (- n)) /\ customLabel c = Some (utc_label (Some n)).

(** ** Laws of the parser *)

Section Laws.

(** [parse_token] only looks at the trimmed token. *)
Lemma parse_token_pad (w1 t w2 : string) :
  all_ws w1 = true -> all_ws w2 = true -> parse_token (w1 +:+ t +:+ w2) = parse_token t.
Proof. intros H1 H2. unfold parse_token. by rewrite js_trim_pad. Qed.

Lemma zone_and_label_literal (t : string) :
  is_int_literal t = true -> zone_and_label t = (t, None).
Proof.
  intros Ht. unfold zone_and_label. by rewrite (proj1 (proj2 (int_literal_plain t Ht))).
Qed.

(** The identifier built for an offset reads back as that offset. *)
Lemma etc_gmt_utc_offset (z : Z) : etc_zone_utc_offset (etc_gmt (num_neg (Some z))) = Some z.
Proof.
  unfold etc_zone_utc_offset, etc_gmt. rewrite strip_prefix_app. simpl num_neg.
  rewrite is_int_literal_signed_string, parseInt_signed_string. simpl. by rewrite Z.opp_involutive.
Qed.

Lemma parse_token_wf (tok : string) : tz_wf (parse_token tok).
Proof.
  unfold parse_token, tz_wf. destruct (zone_and_label (js_trim tok)) as [zp lbl].
  destruct (is_int_literal zp) eqn:Hl; [|done].
  destruct (parseInt_int_literal zp Hl) as [n Hn]. rewrite Hn.
  destruct (truthy lbl); simpl; [done|]. intros _. exists n. split; [repeat f_equal; try lia | done].
Qed.

(** A parameter made of one integer literal has one pure-offset column. *)
Lemma getTimezones_literal (t : string) (z : Z) :
  is_int_literal t = true -> parseInt t = Some z ->
  getTimezones (Some t) =
    [{| timezone := etc_gmt (Some (- z)); customLabel := Some (utc_label (Some z)); isPureOffset := true |}].
Proof.
  intros Ht Hz. destruct (int_literal_plain t Ht) as (Htrim & _ & Hcomma & _).
  unfold getTimezones, truthy. rewrite bool_decide_false by (intros ->; discriminate).
  rewrite js_split_free by done. change (parse_token <$> [t]) with [parse_token t].
  unfold parse_token. by rewrite Htrim, zone_and_label_literal, Ht, Hz.
Qed.

(** C1: an integer token with no label, with any surrounding whitespace,
    becomes the pure-offset column whose zone is [Etc/GMT] with the
    inverted offset and whose label is [UTC] with the offset as written,
    its sign always shown ([UTC+4], [UTC-5], [UTC+0]). *)
Theorem parse_token_pure_offset (w1 t w2 : string) (z : Z) :
  all_ws w1 = true -> all_ws w2 = true -> is_int_literal t = true -> parseInt t = Some z ->
  parse_token (w1 +:+ t +:+ w2) =
    {| timezone := etc_gmt (Some (- z)); customLabel := Some (utc_label (Some z));
       isPureOffset := true |}.
Proof.
  intros H1 H2 Ht Hz. rewrite parse_token_pad by done. unfold parse_token.
  destruct (int_literal_plain t Ht) as (Htrim & _).
  by rewrite Htrim, zone_and_label_literal, Ht, Hz.
Qed.

Lemma parse_token_pure_offset_witness :
  (all_ws " " = true /\ all_ws "" = true /\ is_int_literal "+4" = true /\ parseInt "+4" = Some 4) /\
  parse_token (" " +:+ "+4" +:+ "") =
    {| timezone := "Etc/GMT-4"; customLabel := Some "UTC+4"; isPureOffset := true |}.
Proof.
  split; [split_and!; reflexivity|].
  apply (parse_token_pure_offset " " "+4" "" 4); reflexivity.
Defined.

(** C2: the offset inversion law.  When the zone part of a token is an
    integer [n] (with or without a label), the column's zone is
    [Etc/GMT] followed by [-n], and that IANA zone is exactly [n] hours
    ahead of UTC, as the user wrote. *)
Theorem parse_token_zone_offset (tok zp : string) (lbl : option string) (z : Z) :
  zone_and_label (js_trim tok) = (zp, lbl) -> is_int_literal zp = true -> parseInt zp = Some z ->
  timezone (parse_token tok) = etc_gmt (Some (- z)) /\
  etc_zone_utc_offset (timezone (parse_token tok)) = Some z.
Proof.
  intros Hzl Hlit Hz. unfold parse_token. rewrite Hzl, Hlit, Hz.
  destruct (negb (truthy lbl)); split; try done; apply etc_gmt_utc_offset.
Qed.

Lemma parse_token_zone_offset_witness :
  (zone_and_label (js_trim "+4:Dubai") = ("+4", Some "Dubai") /\ is_int_literal "+4" = true /\
   parseInt "+4" = Some 4) /\
  timezone (parse_token "+4:Dubai") = etc_gmt (Some (-4)) /\
  etc_zone_utc_offset (timezone (parse_token "+4:Dubai")) = Some 4.
Proof.
  split; [split_and!; reflexivity|].
  apply (parse_token_zone_offset "+4:Dubai" "+4" (Some "Dubai") 4); reflexivity.
Defined.

(** C7: a column is a pure offset exactly when its zone part is an
    integer literal and its label is absent or empty: an empty label
    ["+4:"] counts as no label, because the source tests [!customLabel]. *)
Theorem parse_token_pure_iff (tok : string) :
  isPureOffset (parse_token tok) = true <->
  is_int_literal (zone_and_label (js_trim tok)).1 = true /\
  truthy (zone_and_label (js_trim tok)).2 = false.
Proof.
  unfold parse_token. destruct (zone_and_label (js_trim tok)) as [zp lbl]; simpl.
  destruct (is_int_literal zp), (truthy lbl); simpl; naive_solver.
Qed.

(** C8: the tokens of the parameter are parsed in isolation: for
    comma-free tokens, the columns of their comma-joined list are the
    parses of the tokens, one each, in order. *)
Theorem getTimezones_tokens (toks : list string) :
  toks <> [] -> Forall (fun t => js_includes "," t = false) toks -> js_join "," toks <> "" ->
  getTimezones (Some (js_join "," toks)) = parse_token <$> toks.
Proof.
  intros Hne Hfree Hnonempty. unfold getTimezones, truthy.
  rewrite bool_decide_false by done. simpl. by rewrite js_split_join.
Qed.

Lemma getTimezones_tokens_witness :
  (["+4"; " Europe/Paris:Paris"] <> [] /\
   Forall (fun t => js_includes "," t = false) ["+4"; " Europe/Paris:Paris"] /\
   js_join "," ["+4"; " Europe/Paris:Paris"] <> "") /\
  getTimezones (Some "+4, Europe/Paris:Paris") = parse_token <$> ["+4"; " Europe/Paris:Paris"].
Proof.
  split; [split_and!; [done | repeat constructor | done]|].
  apply (getTimezones_tokens ["+4"; " Europe/Paris:Paris"]); [done | repeat constructor | done].
Defined.

(** C9: the label is the trimmed text between the first and the second
    colon; the text after a second colon is dropped, because the source
    destructures only the first two pieces of [split(':')]. *)
Theorem zone_and_label_pieces (p1 p2 : string) (ps : list string) :
  Forall (fun p => js_includes ":" p = false) (p1 :: p2 :: ps) ->
  zone_and_label (js_join ":" (p1 :: p2 :: ps)) = (js_trim p1, Some (js_trim p2)).
Proof.
  intros Hps. unfold zone_and_label, split_label.
  rewrite js_includes_join, js_split_join by done. done.
Qed.

Lemma zone_and_label_pieces_witness :
  Forall (fun p => js_includes ":" p = false) ["Europe/Paris"; "Paris"; " France"] /\
  zone_and_label "Europe/Paris:Paris: France" = ("Europe/Paris", Some "Paris").
Proof.
  split; [repeat constructor|].
  apply (zone_and_label_pieces "Europe/Paris" "Paris" [" France"]). repeat constructor.
Defined.

(** C10: every column [getTimezones] returns satisfies the invariant
    [tz_wf]: a pure-offset column carries the label [UTC+n] of the
    integer [n] whose inverse names its zone. *)
Theorem getTimezones_wf (tzParam : option string) : Forall tz_wf (getTimezones tzParam).
Proof.
  unfold getTimezones. destruct tzParam as [s|]; [destruct (truthy (Some s))|].
  - apply Forall_fmap, Forall_forall. intros tok _. apply parse_token_wf.
  - unfold default_timezones. repeat constructor; discriminate.
  - unfold default_timezones. repeat constructor; discriminate.
Qed.

(** A blank token (for instance between two commas, or after a
    trailing comma) is not skipped: it becomes a column whose zone is the
    empty string, which [Intl.DateTimeFormat] later rejects. *)
Theorem parse_token_blank (w : string) :
  all_ws w = true ->
  parse_token w = {| timezone := ""; customLabel := None; isPureOffset := false |}.
Proof. intros Hw. unfold parse_token, js_trim. by rewrite trim_start_ws. Qed.

(** C14: a non-empty parameter yields one column per comma-separated
    token: one more than its number of commas. *)
Theorem getTimezones_length (s : string) :
  s <> "" -> length (getTimezones (Some s)) = S (count_char "," s).
Proof.
  intros Hs. unfold getTimezones, truthy. rewrite bool_decide_false by done. simpl.
  by rewrite length_fmap, js_split_length.
Qed.

Lemma getTimezones_length_witness :
  "a,,b," <> "" /\ length (getTimezones (Some "a,,b,")) = 4%nat.
Proof. split; [done | apply (getTimezones_length "a,,b,"); done]. Defined.

(** C15: without a parameter, or with an empty one, the columns are
    London, New York, Chicago and Los Angeles, in this order, with no
    label and no pure offset. *)
Theorem getTimezones_default (tzParam : option string) :
  truthy tzParam = false ->
  timezone <$> getTimezones tzParam =
    ["Europe/London"; "America/New_York"; "America/Chicago"; "America/Los_Angeles"] /\
  Forall (fun c => customLabel c = None /\ isPureOffset c = false) (getTimezones tzParam).
Proof.
  intros Hf. assert (getTimezones tzParam = default_timezones) as ->.
  { unfold getTimezones. destruct tzParam; [by rewrite Hf | done]. }
  split; [done | repeat constructor].
Qed.

Lemma getTimezones_default_witness :
  (truthy (Some "") = false /\ truthy None = false) /\
  timezone <$> getTimezones (Some "") =
    ["Europe/London"; "America/New_York"; "America/Chicago"; "America/Los_Angeles"].
Proof. split; [split; reflexivity | apply (getTimezones_default (Some "")); reflexivity]. Defined.

(** C16: the header location of a column without label is the last
    [/]-separated part of its zone with underscores read as spaces
    ([America/Los_Angeles] shows [Los Angeles]); a zone without [/] shows
    as it is. *)
Theorem getFriendlyLocation_spec (ps : list string) (city : string) :
  Forall (fun p => js_includes "/" p = false) (ps ++ [city]) ->
  getFriendlyLocation (js_join "/" (ps ++ [city])) =
    if decide (ps = []) then city else replace_all "_" " " city.
Proof.
  intros Hfree. unfold getFriendlyLocation.
  rewrite js_split_join; [| intros []%app_eq_nil; done | done].
  rewrite last_last, length_app. simpl.
  destruct ps as [|p ps']; simpl; [done|]. rewrite (proj2 (Nat.ltb_lt 1 _)) by lia. done.
Qed.

Lemma getFriendlyLocation_spec_witness :
  Forall (fun p => js_includes "/" p = false) (["America"] ++ ["Los_Angeles"]) /\
  getFriendlyLocation "America/Los_Angeles" = "Los Angeles".
Proof.
  split; [repeat constructor|].
  apply (getFriendlyLocation_spec ["America"] "Los_Angeles"). repeat constructor.
Defined.

End Laws.

End TzParser.
