(* ===== verification/Calendar.v ===== *)
(** * The proleptic Gregorian calendar of ECMAScript dates

    ECMA-262 (21.4.1) defines YearFromTime, MonthFromTime and DateFromTime
    through the day number of a time value (days since 1970-01-01), in the
    proleptic Gregorian calendar.  The module [Civil] computes the date of
    a day number and the day number of a date by eras of 400 years
    (146097 days): [civil_from_days] and [days_from_civil].

    The laws are proved in two steps: each of the 146097 days of an era
    and each of the valid dates of an era is checked by evaluation
    ([check_range] and [vm_compute]), and the eras are put together by
    arithmetic on [Z.div]/[Z.modulo].  The results: every day number has
    a valid date, and the two conversions are inverse. *)

From S2P Require Import Prelude.

Local Open Scope Z_scope.

Module Civil.

(** Within an era of 400 years starting on a 1 March: the day of the era
    [doe] (0..146096) to the year of the era, the month (1..12) and the day
    of the month. *)
Definition doe_to_ymd (doe : Z) : Z * Z * Z :=
  let yoe := (doe - doe / 1460 + doe / 36524 - doe / 146096) / 365 in
  let doy := doe - (365 * yoe + yoe / 4 - yoe / 100) in
  let mp := (5 * doy + 2) / 153 in
  let d := doy - (153 * mp + 2) / 5 + 1 in
  let m := if mp <? 10 then mp + 3 else mp - 9 in
  (yoe, m, d).

Definition ymd_to_doe (yoe m d : Z) : Z :=
  let doy := (153 * (if 2 <? m then m - 3 else m + 9) + 2) / 5 + d - 1 in
  yoe * 365 + yoe / 4 - yoe / 100 + doy.

(** Day number (days since 1970-01-01) to (year, month 1..12, day 1..31). *)
Definition civil_from_days (z : Z) : Z * Z * Z :=
  let z' := z + 719468 in
  let era := z' / 146097 in
  let doe := z' mod 146097 in
  let '(yoe, m, d) := doe_to_ymd doe in
  (yoe + era * 400 + (if m <=? 2 then 1 else 0), m, d).

(** (year, month 1..12, day) to day number. *)
Definition days_from_civil (y m d : Z) : Z :=
  let y' := y - (if m <=? 2 then 1 else 0) in
  let era := y' / 400 in
  let yoe := y' mod 400 in
  era * 146097 + ymd_to_doe yoe m d - 719468.

Definition is_leap (y : Z) : bool :=
  (y mod 4 =? 0) && (negb (y mod 100 =? 0) || (y mod 400 =? 0)).

Definition days_in_month (y m : Z) : Z :=
  if m =? 2 then (if is_leap y then 29 else 28)
  else if (m =? 4) || (m =? 6) || (m =? 9) || (m =? 11) then 30
  else 31.

Definition valid_date (y m d : Z) : bool :=
  (1 <=? m) && (m <=? 12) && (1 <=? d) && (d <=? days_in_month y m).

(** ** Laws of the calendar *)


Definition leap_shift (m : Z) : Z := if m <=? 2 then 1 else 0.

(** What holds of each day of an era: the year of the era is in
    [0, 400), the date is valid, and converting back gives the day. *)
Definition doe_ok (doe : Z) : bool :=
  let '(yoe, m, d) := doe_to_ymd doe in
  (0 <=? yoe) && (yoe <? 400) && valid_date (yoe + leap_shift m) m d && (ymd_to_doe yoe m d =? doe).

(** What holds of each valid date of an era: it falls inside the era and
    converting back gives the date. *)
Definition ymd_ok (yoe m d : Z) : bool :=
  negb (valid_date (yoe + leap_shift m) m d) ||
  (bool_decide (doe_to_ymd (ymd_to_doe yoe m d) = (yoe, m, d)) &&
   (0 <=? ymd_to_doe yoe m d) && (ymd_to_doe yoe m d <? 146097)).

Lemma doe_ok_all (doe : Z) : 0 <= doe < 146097 -> doe_ok doe = true.
Proof.
  intros H. apply (check_range_spec doe_ok (Z.to_nat 146097) 0); [vm_compute; reflexivity | lia].
Qed.

Lemma ymd_ok_all (yoe m d : Z) : 0 <= yoe < 400 -> 1 <= m <= 12 -> 1 <= d <= 31 -> ymd_ok yoe m d = true.
Proof.
  intros Hy Hm Hd.
  assert (H : check_range (fun yoe => check_range (fun m => check_range (fun d => ymd_ok yoe m d)
                 31 1) 12 1) 400 0 = true) by (vm_compute; reflexivity).
  pose proof (check_range_spec _ _ _ H yoe ltac:(lia)) as H1. cbv beta in H1.
  pose proof (check_range_spec _ _ _ H1 m ltac:(lia)) as H2. cbv beta in H2.
  exact (check_range_spec _ _ _ H2 d ltac:(lia)).
Qed.

Lemma is_leap_add400 (a k : Z) : is_leap (a + k * 400) = is_leap a.
Proof.
  unfold is_leap.
  replace (a + k * 400) with (a + (k * 100) * 4) at 1 by ring. rewrite Z.mod_add by lia.
  replace (a + k * 400) with (a + (k * 4) * 100) at 1 by ring. rewrite Z.mod_add by lia.
  rewrite Z.mod_add by lia. done.
Qed.

Lemma valid_date_add400 (a k m d : Z) : valid_date (a + k * 400) m d = valid_date a m d.
Proof. unfold valid_date, days_in_month. by rewrite is_leap_add400. Qed.

(** The parts of an era decomposition: [z = 146097 * (z / 146097) + z mod 146097]. *)
Lemma era_split (x : Z) (k : Z) (r : Z) :
  0 <= r < 400 -> (r + k * 400) / 400 = k /\ (r + k * 400) mod 400 = r.
Proof.
  intros Hr. rewrite Z.div_add, Z.mod_add by lia. rewrite Z.div_small, Z.mod_small by lia. lia.
Qed.

(** The day number of the date of a day number is that day number. *)
Lemma days_from_civil_from_days (z : Z) :
  let '(y, m, d) := civil_from_days z in days_from_civil y m d = z.
Proof.
  unfold civil_from_days.
  pose proof (Z.mod_pos_bound (z + 719468) 146097 ltac:(lia)) as Hdoe.
  pose proof (Z.div_mod (z + 719468) 146097 ltac:(lia)) as Hz.
  set (era := (z + 719468) / 146097) in *. set (doe := (z + 719468) mod 146097) in *.
  pose proof (doe_ok_all doe Hdoe) as Hok. unfold doe_ok in Hok.
  destruct (doe_to_ymd doe) as [[yoe m] d].
  apply andb_prop in Hok as [Hok Hback]. apply andb_prop in Hok as [Hok _].
  apply andb_prop in Hok as [Hy0 Hy1]. apply Z.leb_le in Hy0. apply Z.ltb_lt in Hy1.
  apply Z.eqb_eq in Hback.
  unfold days_from_civil.
  replace (yoe + era * 400 + (if m <=? 2 then 1 else 0) - (if m <=? 2 then 1 else 0))
    with (yoe + era * 400) by ring.
  destruct (era_split 0 era yoe (conj Hy0 Hy1)) as [-> ->]. lia.
Qed.

(** Every day number has a valid date. *)
Lemma civil_from_days_valid (z : Z) :
  let '(y, m, d) := civil_from_days z in valid_date y m d = true.
Proof.
  unfold civil_from_days.
  pose proof (Z.mod_pos_bound (z + 719468) 146097 ltac:(lia)) as Hdoe.
  set (era := (z + 719468) / 146097). set (doe := (z + 719468) mod 146097) in *.
  pose proof (doe_ok_all doe Hdoe) as Hok. unfold doe_ok in Hok.
  destruct (doe_to_ymd doe) as [[yoe m] d].
  apply andb_prop in Hok as [Hok _]. apply andb_prop in Hok as [_ Hvalid].
  unfold leap_shift in Hvalid.
  replace (yoe + era * 400 + (if m <=? 2 then 1 else 0))
    with ((yoe + (if m <=? 2 then 1 else 0)) + era * 400) by ring.
  by rewrite valid_date_add400.
Qed.

Lemma valid_date_bounds (y m d : Z) : valid_date y m d = true -> 1 <= m <= 12 /\ 1 <= d <= 31.
Proof.
  unfold valid_date, days_in_month. intros H.
  repeat match type of H with (_ && _) = true => apply andb_prop in H as [H ?] end.
  repeat match goal with Hb : (_ <=? _) = true |- _ => apply Z.leb_le in Hb end.
  split; [lia|]. split; [lia|].
  repeat match goal with Hd : d <= (if ?b then _ else _) |- _ => destruct b end; lia.
Qed.

(** [civil_from_days] on a day given by its era and its day of the era. *)
Lemma civil_from_days_era (doe era : Z) :
  0 <= doe < 146097 ->
  civil_from_days (doe + era * 146097 - 719468) =
    let '(yoe, m, d) := doe_to_ymd doe in (yoe + era * 400 + leap_shift m, m, d).
Proof.
  intros Hdoe. unfold civil_from_days.
  replace (doe + era * 146097 - 719468 + 719468) with (doe + era * 146097) by ring.
  rewrite Z.div_add, Z.mod_add by lia. rewrite Z.div_small, Z.mod_small by lia. done.
Qed.

(** [days_from_civil] decomposed by eras. *)
Lemma days_from_civil_era (y m d : Z) :
  days_from_civil y m d =
    ymd_to_doe ((y - leap_shift m) mod 400) m d + (y - leap_shift m) / 400 * 146097 - 719468.
Proof. unfold days_from_civil, leap_shift. lia. Qed.

(** The date of the day number of a valid date is that date. *)
Lemma civil_from_days_from_civil (y m d : Z) :
  valid_date y m d = true -> civil_from_days (days_from_civil y m d) = (y, m, d).
Proof.
  intros Hv. pose proof (valid_date_bounds y m d Hv) as [Hm Hd].
  rewrite days_from_civil_era.
  pose proof (Z.mod_pos_bound (y - leap_shift m) 400 ltac:(lia)) as Hyoe.
  pose proof (Z.div_mod (y - leap_shift m) 400 ltac:(lia)) as Hy.
  pose proof (ymd_ok_all _ m d Hyoe Hm Hd) as Hok. unfold ymd_ok in Hok.
  assert (Hv' : valid_date ((y - leap_shift m) mod 400 + leap_shift m) m d = true).
  { rewrite <- (valid_date_add400 _ ((y - leap_shift m) / 400)), <- Hv. f_equal. lia. }
  rewrite Hv' in Hok. change (negb true) with false in Hok. rewrite orb_false_l in Hok.
  apply andb_prop in Hok as [Hok Hhi]. apply andb_prop in Hok as [Hback Hlo].
  apply bool_decide_eq_true in Hback. apply Z.leb_le in Hlo. apply Z.ltb_lt in Hhi.
  rewrite civil_from_days_era by lia. rewrite Hback. f_equal. f_equal. lia.
Qed.

(** [days_from_civil] is linear in the day of the month. *)
Lemma days_from_civil_day (y m d : Z) : days_from_civil y m d = days_from_civil y m 1 + d - 1.
Proof. unfold days_from_civil, ymd_to_doe. lia. Qed.


(** The date conversion of ECMAScript is a bijection between day
    numbers and valid dates: [civil_from_days z] is [(y, m, d)] exactly
    when [(y, m, d)] is a valid date of the proleptic Gregorian calendar
    whose day number is [z].  Two times thus have the same date, month and
    year exactly when they fall on the same day, which [isToday] relies
    on. *)
Theorem civil_from_days_iff (z y m d : Z) :
  civil_from_days z = (y, m, d) <-> valid_date y m d = true /\ days_from_civil y m d = z.
Proof.
  split.
  - intros Hz. pose proof (civil_from_days_valid z) as Hv. pose proof (days_from_civil_from_days z) as Hb.
    rewrite Hz in Hv, Hb. done.
  - intros [Hv <-]. by apply civil_from_days_from_civil.
Qed.

End Civil.
