(* ===== verification/JsDate.v ===== *)
(** * ECMAScript [Date] arithmetic used by [renderTable]

    [renderTable] ([src/script.js], lines 113-118, 169-173) and [isToday]
    (lines 102-107) compute with [Date] objects: [new Date()], [getDate],
    [setDate], [setHours], [getHours], [getMonth], [getFullYear].  A
    [Date] holds a time value, the milliseconds since the epoch in UTC
    (an integer [Z]); its local-time methods go through LocalTime and UTC
    (ECMA-262 21.4.1).  The module [EcmaDate] models the abstract
    operations Day, TimeWithinDay, MakeTime, MakeDay and MakeDate, the
    calendar of YearFromTime/MonthFromTime/DateFromTime by the day-number
    conversion [civil_from_days] / [days_from_civil] (the proleptic
    Gregorian calendar, computed by eras of 400 years), and the methods the
    program calls, in a section whose [LocalTZA] is the offset of the
    viewer's local time zone, constant (a zone with a daylight-saving
    transition is the model of [Dst.v], which agrees with this one when
    the offset does not change).

    The laws: [setDate] moves the local day by the given number of days
    and keeps the time of day, [setHours] on a local midnight gives that
    hour of the same day, and two times have the same local date, month
    and year exactly when they fall on the same local day (from the
    calendar round trip of [Calendar.v]).  The methods do not apply
    [TimeClip]: the times of the program are those of the present, far
    inside the 8.64e15 ms range where it is the identity ([Grid.v] proves it of every time
    value a render builds). *)

From S2P Require Import Prelude Calendar.

Local Open Scope Z_scope.

Module EcmaDate.
Import Civil.

(** ** Time values and the abstract operations of ECMA-262 21.4.1 *)

Definition msPerSecond : Z := 1000.
Definition msPerMinute : Z := 60000.
Definition msPerHour : Z := 3600000.
Definition msPerDay : Z := 86400000.

Definition Day (t : Z) : Z := t / msPerDay.
Definition TimeWithinDay (t : Z) : Z := t mod msPerDay.
Definition HourFromTime (t : Z) : Z := (t / msPerHour) mod 24.
Definition MinFromTime (t : Z) : Z := (t / msPerMinute) mod 60.
Definition SecFromTime (t : Z) : Z := (t / msPerSecond) mod 60.
Definition msFromTime (t : Z) : Z := t mod msPerSecond.

Definition MakeTime (h m s ms : Z) : Z := h * msPerHour + m * msPerMinute + s * msPerSecond + ms.
Definition MakeDate (day time : Z) : Z := day * msPerDay + time.

(** TimeClip: a time value farther than 8.64e15 ms (10^8 days) from the
    epoch is NaN.  Every time value below 2^53 is an exact double. *)
Definition maxTime : Z := 8640000000000000.
Definition TimeClip (t : Z) : option Z := if Z.abs t <=? maxTime then Some t else None.

(** YearFromTime, MonthFromTime (0..11) and DateFromTime (1..31). *)
Definition YearFromTime (t : Z) : Z := let '(y, _, _) := civil_from_days (Day t) in y.
Definition MonthFromTime (t : Z) : Z := let '(_, m, _) := civil_from_days (Day t) in m - 1.
Definition DateFromTime (t : Z) : Z := let '(_, _, d) := civil_from_days (Day t) in d.

(** MakeDay(year, month, date): the month may run past 11 and the date
    past the end of the month; both are normalised. *)
Definition MakeDay (year month date : Z) : Z :=
  let ym := year + month / 12 in
  let mn := month mod 12 in
  days_from_civil ym (mn + 1) 1 + date - 1.

(** ** The [Date] methods, in the viewer's local time *)

Section LocalTime.

(** The offset of local time from UTC, in milliseconds. *)
Context (LocalTZA : Z).

Definition LocalTime (t : Z) : Z := t + LocalTZA.
Definition UTC (t : Z) : Z := t - LocalTZA.

Definition getDate (t : Z) : Z := DateFromTime (LocalTime t).
Definition getMonth (t : Z) : Z := MonthFromTime (LocalTime t).
Definition getFullYear (t : Z) : Z := YearFromTime (LocalTime t).
Definition getHours (t : Z) : Z := HourFromTime (LocalTime t).

(** [d.setDate(dt)]. *)
Definition setDate (t dt : Z) : Z :=
  let lt := LocalTime t in
  UTC (MakeDate (MakeDay (YearFromTime lt) (MonthFromTime lt) dt) (TimeWithinDay lt)).

(** [d.setHours(h, m, s, ms)]. *)
Definition setHours4 (t h m s ms : Z) : Z :=
  UTC (MakeDate (Day (LocalTime t)) (MakeTime h m s ms)).

(** [d.setHours(h)]: the minutes, seconds and milliseconds are kept. *)
Definition setHours (t h : Z) : Z :=
  let lt := LocalTime t in
  UTC (MakeDate (Day lt) (MakeTime h (MinFromTime lt) (SecFromTime lt) (msFromTime lt))).

End LocalTime.


(** ** Laws of the [Date] methods *)

Section Laws.

Context (LocalTZA : Z).

Lemma LocalTime_UTC (x : Z) : LocalTime LocalTZA (UTC LocalTZA x) = x.
Proof. unfold LocalTime, UTC. lia. Qed.

Lemma Day_MakeDate (day time : Z) : 0 <= time < msPerDay -> Day (MakeDate day time) = day.
Proof.
  intros H. unfold Day, MakeDate. rewrite Z.add_comm, Z.div_add by (unfold msPerDay; lia).
  rewrite Z.div_small by done. lia.
Qed.

Lemma Day_bounds (t : Z) : Day t * msPerDay <= t < Day t * msPerDay + msPerDay.
Proof.
  unfold Day. pose proof (Z.div_mod t msPerDay ltac:(unfold msPerDay; lia)).
  pose proof (Z.mod_pos_bound t msPerDay ltac:(unfold msPerDay; lia)). lia.
Qed.

Lemma TimeWithinDay_bound (t : Z) : 0 <= TimeWithinDay t < msPerDay.
Proof. unfold TimeWithinDay. apply Z.mod_pos_bound. unfold msPerDay. lia. Qed.

(** MakeDay on the year and month of a time value moves by days from its
    date: the month is in range, so nothing is normalised. *)
Lemma MakeDay_from_time (t dt : Z) :
  MakeDay (YearFromTime t) (MonthFromTime t) dt = Day t + dt - DateFromTime t.
Proof.
  unfold YearFromTime, MonthFromTime, DateFromTime.
  pose proof (days_from_civil_from_days (Day t)) as Hback.
  pose proof (civil_from_days_valid (Day t)) as Hvalid.
  destruct (civil_from_days (Day t)) as [[y m] d].
  apply valid_date_bounds in Hvalid as [Hm _].
  unfold MakeDay. rewrite (Z.div_small (m - 1) 12), (Z.mod_small (m - 1) 12) by lia.
  replace (y + 0) with y by lia. replace (m - 1 + 1) with m by lia.
  rewrite (days_from_civil_day y m d) in Hback. lia.
Qed.

(** [setDate(dt)] moves the local day by [dt - getDate()] days and keeps
    the local time of day. *)
Lemma Day_setDate (t dt : Z) :
  Day (LocalTime LocalTZA (setDate LocalTZA t dt)) = Day (LocalTime LocalTZA t) + dt - getDate LocalTZA t.
Proof.
  unfold setDate, getDate. rewrite LocalTime_UTC, Day_MakeDate by apply TimeWithinDay_bound.
  apply MakeDay_from_time.
Qed.

(** [setHours(h, m, s, ms)] sets the local time of day and keeps the day. *)
Lemma LocalTime_setHours4 (t h m s ms : Z) :
  LocalTime LocalTZA (setHours4 LocalTZA t h m s ms) = MakeDate (Day (LocalTime LocalTZA t)) (MakeTime h m s ms).
Proof. unfold setHours4. apply LocalTime_UTC. Qed.

Lemma getHours_range (t : Z) : 0 <= getHours LocalTZA t < 24.
Proof. unfold getHours, HourFromTime. apply Z.mod_pos_bound. lia. Qed.

(** Two times have the same local date, day, month and year, exactly when
    they fall on the same local day. *)
Lemma same_date_iff (a b : Z) :
  (getDate LocalTZA a = getDate LocalTZA b /\ getMonth LocalTZA a = getMonth LocalTZA b /\
   getFullYear LocalTZA a = getFullYear LocalTZA b) <->
  Day (LocalTime LocalTZA a) = Day (LocalTime LocalTZA b).
Proof.
  unfold getDate, getMonth, getFullYear, DateFromTime, MonthFromTime, YearFromTime.
  pose proof (days_from_civil_from_days (Day (LocalTime LocalTZA a))) as Ha.
  pose proof (days_from_civil_from_days (Day (LocalTime LocalTZA b))) as Hb.
  split.
  - destruct (civil_from_days (Day (LocalTime LocalTZA a))) as [[ya ma] da].
    destruct (civil_from_days (Day (LocalTime LocalTZA b))) as [[yb mb] db].
    intros (-> & Hm & ->). replace ma with mb in * by lia. congruence.
  - intros ->. done.
Qed.

(** The fields of a midnight: its day and zero minutes, seconds and
    milliseconds. *)
Lemma midnight_fields (D : Z) :
  Day (D * msPerDay) = D /\ MinFromTime (D * msPerDay) = 0 /\
  SecFromTime (D * msPerDay) = 0 /\ msFromTime (D * msPerDay) = 0.
Proof.
  unfold Day, MinFromTime, SecFromTime, msFromTime, msPerDay, msPerMinute, msPerSecond.
  split_and!.
  - apply Z.div_mul; lia.
  - replace (D * 86400000) with (D * 24 * 60 * 60000) by ring.
    rewrite Z.div_mul by lia. apply Z.mod_mul. lia.
  - replace (D * 86400000) with (D * 1440 * 60 * 1000) by ring.
    rewrite Z.div_mul by lia. apply Z.mod_mul. lia.
  - replace (D * 86400000) with (D * 86400 * 1000) by ring. apply Z.mod_mul. lia.
Qed.

(** [setHours(h)] on a local midnight gives [h] o'clock of that day. *)
Lemma LocalTime_setHours_midnight (t D h : Z) :
  LocalTime LocalTZA t = D * msPerDay ->
  LocalTime LocalTZA (setHours LocalTZA t h) = D * msPerDay + h * msPerHour.
Proof.
  intros Ht. unfold setHours. rewrite LocalTime_UTC, Ht.
  destruct (midnight_fields D) as (-> & -> & -> & ->). unfold MakeDate, MakeTime. lia.
Qed.

End Laws.

End EcmaDate.
