(* ===== verification/Intl.v ===== *)
(** * The [Intl.DateTimeFormat] service and the helpers built on it

    [src/script.js] formats times with [new Intl.DateTimeFormat('en-US',
    options)]: [getTimezoneAbbr] (lines 47-56), [formatTime] (58-70),
    [getHourInTimezone] (72-79), [isWorkingHours] (81-84) and [formatDate]
    (95-100); [isToday] (102-107) compares dates.  The constructor throws a
    [RangeError] for a [timeZone] it does not know, and that exception is
    not caught anywhere.

    The module [IntlDTF] states the service as a type class [IntlService]
    (the zones it knows, the host's default zone, [format] and
    [formatToParts] of a time value under the options the program passes),
    the constructor [DateTimeFormat] with its [RangeError], and the helpers
    over it, each returning a [result].  The class [IntlLaws] states what
    the grid's theorems need of a real implementation: the hour a
    formatter prints is the wall-clock hour of the zone, or [24] at
    midnight (the rendering of [hour12: false] by some engines).  The
    instance [EtcIntl] implements the service for [UTC] and the zones
    [Etc/GMT-14] .. [Etc/GMT+12] of the IANA database, so that whole
    renders can be evaluated. *)

From S2P Require Import Prelude JsString Parser Calendar JsDate.

Local Open Scope Z_scope.

Module IntlDTF.
Import EcmaDate.

(** ** The service *)

(** The options objects of the program's formatters. *)
Inductive dtf_options :=
| OptTimeZoneName   (** [{ timeZone, timeZoneName: 'short' }], lines 48-51 *)
| OptHourMinute     (** [{ timeZone, hour: '2-digit', minute: '2-digit', hour12: false }], 59-64 *)
| OptHourNumeric    (** [{ timeZone, hour: 'numeric', hour12: false }], 73-77 *)
| OptWeekdayShort   (** [{ weekday: 'short' }], line 96 *)
| OptMonthShort.    (** [{ month: 'short' }], line 98 *)

(** A formatter: its resolved time zone and its options. *)
Record dtf := mk_dtf { dtf_zone : string; dtf_opts : dtf_options }.

(** An element of [formatToParts]: [{ type, value }]. *)
Record part := mk_part { part_type : string; part_value : string }.

Class IntlService := {
  is_valid_tz : string -> bool;
  default_tz : string;
  format : dtf -> Z -> string;
  formatToParts : dtf -> Z -> list part
}.

Section Helpers.

Context `{IntlService}.

(** [new Intl.DateTimeFormat('en-US', { timeZone, ... })]; [None] when the
    options have no [timeZone]. *)
Definition DateTimeFormat (timeZone : option string) (opts : dtf_options) : result dtf :=
  match timeZone with
  | None => Ok {| dtf_zone := default_tz; dtf_opts := opts |}
  | Some tz =>
      if is_valid_tz tz then Ok {| dtf_zone := tz; dtf_opts := opts |}
      else throw! (RangeError ("Invalid time zone specified: " +:+ tz))
  end.

(** [getTimezoneAbbr(date, timezone)], lines 47-56. *)
Definition getTimezoneAbbr (date : Z) (timezone : string) : result string :=
  let! formatter := DateTimeFormat (Some timezone) OptTimeZoneName in
  let parts := formatToParts formatter date in
  Ok (match List.find (fun p => bool_decide (part_type p = "timeZoneName")) parts with
      | Some tzPart => part_value tzPart
      | None => ""
      end).

(** [formatTime(date, timezone)], lines 58-70: [{ time, abbr }]. *)
Definition formatTime (date : Z) (timezone : string) : result (string * string) :=
  let! timeFormatter := DateTimeFormat (Some timezone) OptHourMinute in
  let time := format timeFormatter date in
  let! abbr := getTimezoneAbbr date timezone in
  Ok (time, abbr).

(** [getHourInTimezone(date, timezone)], lines 72-79. *)
Definition getHourInTimezone (date : Z) (timezone : string) : result js_num :=
  let! formatter := DateTimeFormat (Some timezone) OptHourNumeric in
  Ok (parseInt (format formatter date)).

(** [hour >= 8 && hour < 19]: both comparisons are false for [NaN]. *)
Definition working_hour (hour : js_num) : bool :=
  match hour with
  | Some h => (8 <=? h) && (h <? 19)
  | None => false
  end.

(** [isWorkingHours(date, timezone)], lines 81-84. *)
Definition isWorkingHours (date : Z) (timezone : string) : result bool :=
  let! hour := getHourInTimezone date timezone in
  Ok (working_hour hour).

(** [formatDate(date)], lines 95-100, with [date.getDate()] in the local
    time of offset [LocalTZA]. *)
Definition formatDate (LocalTZA : Z) (date : Z) : result string :=
  let! wf := DateTimeFormat None OptWeekdayShort in
  let weekday := format wf date in
  let day := getDate LocalTZA date in
  let! mf := DateTimeFormat None OptMonthShort in
  let month := format mf date in
  Ok (weekday +:+ ", " +:+ js_number_to_string day +:+ " " +:+ month).

End Helpers.

(** [isToday(date)], lines 102-107, with the reading [today] of
    [new Date()] as a parameter. *)
Definition isToday (LocalTZA today date : Z) : bool :=
  (getDate LocalTZA date =? getDate LocalTZA today) &&
  (getMonth LocalTZA date =? getMonth LocalTZA today) &&
  (getFullYear LocalTZA date =? getFullYear LocalTZA today).

(** [String(n).padStart(2, '0')]. *)
Definition pad2 (n : Z) : string := js_padStart 2 "0" (js_number_to_string n).


(** ** What the theorems need of an implementation *)

(** Every zone has a wall-clock hour and minute at every time value; a
    formatter of a known zone prints them, the hour as [24] instead of [0]
    on engines whose [hour12: false] selects the [h24] cycle. *)
Class IntlLaws (S : IntlService) := {
  zone_hour : string -> Z -> Z;
  zone_minute : string -> Z -> Z;
  zone_hour_range : forall tz t, 0 <= zone_hour tz t < 24;
  zone_minute_range : forall tz t, 0 <= zone_minute tz t < 60;
  hour_numeric_law : forall tz t, is_valid_tz tz = true ->
    format (mk_dtf tz OptHourNumeric) t = js_number_to_string (zone_hour tz t) \/
    (zone_hour tz t = 0 /\ format (mk_dtf tz OptHourNumeric) t = "24");
  hour_minute_law : forall tz t, is_valid_tz tz = true ->
    format (mk_dtf tz OptHourMinute) t = pad2 (zone_hour tz t) +:+ ":" +:+ pad2 (zone_minute tz t) \/
    (zone_hour tz t = 0 /\ format (mk_dtf tz OptHourMinute) t = "24:" +:+ pad2 (zone_minute tz t))
}.

(** ** Laws of the helpers *)

Section HelperLaws.

Context `{S : IntlService}.

Lemma DateTimeFormat_valid (tz : string) (opts : dtf_options) :
  is_valid_tz tz = true -> DateTimeFormat (Some tz) opts = Ok (mk_dtf tz opts).
Proof. intros Hv. unfold DateTimeFormat. by rewrite Hv. Qed.

Lemma DateTimeFormat_invalid (tz : string) (opts : dtf_options) :
  is_valid_tz tz = false ->
  DateTimeFormat (Some tz) opts = Throw (RangeError ("Invalid time zone specified: " +:+ tz)).
Proof. intros Hv. unfold DateTimeFormat. by rewrite Hv. Qed.

(** Each helper throws exactly the [RangeError] of an unknown zone. *)
Lemma formatTime_invalid (date : Z) (tz : string) :
  is_valid_tz tz = false -> formatTime date tz = Throw (RangeError ("Invalid time zone specified: " +:+ tz)).
Proof. intros Hv. unfold formatTime. by rewrite DateTimeFormat_invalid. Qed.

Lemma getTimezoneAbbr_invalid (date : Z) (tz : string) :
  is_valid_tz tz = false ->
  getTimezoneAbbr date tz = Throw (RangeError ("Invalid time zone specified: " +:+ tz)).
Proof. intros Hv. unfold getTimezoneAbbr. by rewrite DateTimeFormat_invalid. Qed.

Lemma isWorkingHours_invalid (date : Z) (tz : string) :
  is_valid_tz tz = false ->
  isWorkingHours date tz = Throw (RangeError ("Invalid time zone specified: " +:+ tz)).
Proof. intros Hv. unfold isWorkingHours, getHourInTimezone. by rewrite DateTimeFormat_invalid. Qed.

Lemma formatTime_valid (date : Z) (tz : string) :
  is_valid_tz tz = true ->
  exists abbr, formatTime date tz = Ok (format (mk_dtf tz OptHourMinute) date, abbr).
Proof.
  intros Hv. unfold formatTime, getTimezoneAbbr. rewrite !DateTimeFormat_valid by done. simpl. eauto.
Qed.

Lemma formatDate_ok (LocalTZA date : Z) : exists s, formatDate LocalTZA date = Ok s.
Proof. unfold formatDate. simpl. eauto. Qed.

Context `{L : !IntlLaws S}.

(** The hour a formatter of a known zone prints is a working hour exactly
    when the zone's wall-clock hour is in [8, 19); a midnight printed as
    [24] is not a working hour, as [0] is not. *)
Lemma working_hour_format (date : Z) (tz : string) :
  is_valid_tz tz = true ->
  working_hour (parseInt (format (mk_dtf tz OptHourNumeric) date)) =
    bool_decide (8 <= zone_hour tz date < 19).
Proof.
  intros Hv. pose proof (zone_hour_range tz date) as Hr.
  destruct (hour_numeric_law tz date Hv) as [-> | [H0 ->]].
  - rewrite parseInt_number_to_string. simpl.
    destruct (Z.leb_spec 8 (zone_hour tz date)), (Z.ltb_spec (zone_hour tz date) 19);
      simpl; symmetry; [apply bool_decide_eq_true | apply bool_decide_eq_false..]; lia.
  - rewrite H0. reflexivity.
Qed.

Lemma isWorkingHours_valid (date : Z) (tz : string) :
  is_valid_tz tz = true ->
  isWorkingHours date tz = Ok (bool_decide (8 <= zone_hour tz date < 19)).
Proof.
  intros Hv. unfold isWorkingHours, getHourInTimezone. rewrite DateTimeFormat_valid by done.
  simpl. by rewrite working_hour_format.
Qed.

(** C18: [isWorkingHours(date, tz)] throws the [RangeError] of an
    unknown zone, and otherwise says whether the zone's wall-clock hour at
    [date] is in [8, 19): from 08:00 to 18:59, midnight excluded even when
    the formatter prints it as [24]. *)
Theorem isWorkingHours_spec (date : Z) (tz : string) :
  isWorkingHours date tz =
    if is_valid_tz tz then Ok (bool_decide (8 <= zone_hour tz date < 19))
    else Throw (RangeError ("Invalid time zone specified: " +:+ tz)).
Proof.
  destruct (is_valid_tz tz) eqn:Hv.
  - by apply isWorkingHours_valid.
  - by apply isWorkingHours_invalid.
Qed.

End HelperLaws.

(** [isToday] holds exactly when the two times fall on the same local day. *)
Lemma isToday_iff (LocalTZA today date : Z) :
  isToday LocalTZA today date = true <->
  Day (LocalTime LocalTZA date) = Day (LocalTime LocalTZA today).
Proof.
  unfold isToday. rewrite <- same_date_iff.
  rewrite !andb_true_iff, !Z.eqb_eq. tauto.
Qed.


(** The hour label of a row, [String(hour).padStart(2, '0')], is
    always two decimal digits, the tens and the units of the hour, for
    every hour 0..23 the loop produces ([07], [23]), so every row label
    [pad2 hour + ':00'] has five characters. *)
Theorem pad2_hour_format (h : Z) :
  0 <= h < 24 -> pad2 h = String (digit_char (h / 10)) (String (digit_char (h mod 10)) EmptyString).
Proof.
  intros Hh.
  assert (Hc : check_range (fun h => bool_decide (pad2 h =
                 String (digit_char (h / 10)) (String (digit_char (h mod 10)) EmptyString))) 24 0 = true)
    by (vm_compute; reflexivity).
  pose proof (check_range_spec _ _ _ Hc h ltac:(lia)) as H. cbv beta in H.
  by apply bool_decide_eq_true in H.
Qed.

(** ** An implementation: the fixed-offset zones of the IANA database *)

Module EtcZones.
Import TzParser.

(** The offset in hours of the zones this implementation knows: [UTC],
    [Etc/GMT] and the canonical [Etc/GMT+n] ([n] in [-14, 12]), whose
    offset is [-n]. *)
Definition etc_offset (tz : string) : option Z :=
  if bool_decide (tz = "UTC") || bool_decide (tz = "Etc/GMT") then Some 0
  else match etc_zone_utc_offset tz with
       | Some n =>
           if bool_decide (etc_gmt (Some (- n)) = tz) && (-12 <=? n) && (n <=? 14) then Some n
           else None
       | None => None
       end.

(** The wall-clock time of the zone, as a time value. *)
Definition etc_local (tz : string) (t : Z) : Z := t + default 0 (etc_offset tz) * msPerHour.

Definition weekday_names : list string := ["Sun"; "Mon"; "Tue"; "Wed"; "Thu"; "Fri"; "Sat"].
Definition month_names : list string :=
  ["Jan"; "Feb"; "Mar"; "Apr"; "May"; "Jun"; "Jul"; "Aug"; "Sep"; "Oct"; "Nov"; "Dec"].

(** The short name en-US gives a fixed offset: [UTC], or [GMT+4]. *)
Definition short_name (n : Z) : string :=
  if n =? 0 then "UTC" else "GMT" +:+ signed_string (Some n).

Definition etc_format (f : dtf) (t : Z) : string :=
  let lt := etc_local (dtf_zone f) t in
  match dtf_opts f with
  | OptHourMinute => pad2 (HourFromTime lt) +:+ ":" +:+ pad2 (MinFromTime lt)
  | OptHourNumeric => js_number_to_string (HourFromTime lt)
  | OptWeekdayShort => nth (Z.to_nat ((Day lt + 4) mod 7)) weekday_names ""
  | OptMonthShort => nth (Z.to_nat (MonthFromTime lt)) month_names ""
  | OptTimeZoneName =>
      js_number_to_string (MonthFromTime lt + 1) +:+ "/" +:+ js_number_to_string (DateFromTime lt) +:+
      "/" +:+ js_number_to_string (YearFromTime lt) +:+ ", " +:+
      short_name (default 0 (etc_offset (dtf_zone f)))
  end.

Definition etc_formatToParts (f : dtf) (t : Z) : list part :=
  let lt := etc_local (dtf_zone f) t in
  match dtf_opts f with
  | OptTimeZoneName =>
      [mk_part "month" (js_number_to_string (MonthFromTime lt + 1)); mk_part "literal" "/";
       mk_part "day" (js_number_to_string (DateFromTime lt)); mk_part "literal" "/";
       mk_part "year" (js_number_to_string (YearFromTime lt)); mk_part "literal" ", ";
       mk_part "timeZoneName" (short_name (default 0 (etc_offset (dtf_zone f))))]
  | _ => [mk_part "literal" (etc_format f t)]
  end.

#[export] Instance EtcIntl : IntlService := {
  is_valid_tz tz := bool_decide (is_Some (etc_offset tz));
  default_tz := "UTC";
  format := etc_format;
  formatToParts := etc_formatToParts
}.

Lemma etc_hour_range (tz : string) (t : Z) : 0 <= HourFromTime (etc_local tz t) < 24.
Proof. unfold HourFromTime. apply Z.mod_pos_bound. lia. Qed.

Lemma etc_minute_range (tz : string) (t : Z) : 0 <= MinFromTime (etc_local tz t) < 60.
Proof. unfold MinFromTime. apply Z.mod_pos_bound. lia. Qed.

(** The zone built for an offset [z] is known exactly when [z] is in
    [-12, 14]. *)
Lemma etc_offset_gmt (z : Z) :
  etc_offset (etc_gmt (Some (- z))) = if (-12 <=? z) && (z <=? 14) then Some z else None.
Proof.
  pose proof (etc_gmt_utc_offset z) as E. simpl num_neg in E.
  unfold etc_offset. rewrite (bool_decide_false (_ = "UTC")) by (unfold etc_gmt; done).
  rewrite (bool_decide_false (_ = "Etc/GMT")) by (intros Heq; by rewrite Heq in E).
  rewrite E. by rewrite bool_decide_true.
Qed.

#[export] Instance EtcIntl_laws : IntlLaws EtcIntl := {
  zone_hour tz t := HourFromTime (etc_local tz t);
  zone_minute tz t := MinFromTime (etc_local tz t);
  zone_hour_range := etc_hour_range;
  zone_minute_range := etc_minute_range;
  hour_numeric_law tz t _ := or_introl eq_refl;
  hour_minute_law tz t _ := or_introl eq_refl
}.

End EtcZones.

End IntlDTF.
