(* ===== verification/Grid.v ===== *)
(** * The grid loop [renderTable] ([src/script.js], lines 109-207)

    [renderTable] parses the columns, empties the container, reads the
    clock once ([now]), and for each [dayOffset] in 0..14 computes the
    local midnight [dayDate], builds a [<details>] section (class [today]
    and [open] flags, the summary [formatDate(dayDate)], one header per
    column, one row per hour from [startHour] to 23 with one cell per
    column) and appends it to the container.  [isToday] and the headers of
    the columns that are not pure offsets read the clock again ([new Date()]).  Any [RangeError]
    of [Intl.DateTimeFormat] propagates out of [renderTable].

    The module [Render] models this as a state and error computation
    [M]: the state is the container (the list of appended day sections)
    and the number of clock reads so far; the clock is a section variable
    [clock : nat -> Z], the value of the n-th [new Date()].  An exception
    leaves the state as it was when it was thrown, as the DOM is left.
    Day sections, rows and cells are records holding exactly what the
    source writes into the DOM ([textContent], [innerHTML], the
    [working-hours], [today] and [open] flags).

    The specification [grid_spec] describes the page declaratively; the
    sections [Refinement] and [Abort] prove that a render computes it or
    throws the [RangeError] of an unknown zone with an empty page (and
    [Abort] that a blank token, which the parser keeps as a column of zone
    [""], makes every render throw), and
    [GridLaws] derives the shape, marks and cells of the page from it.
    [Examples] evaluates renders under the [Etc] zones of [Intl.v]. *)

From S2P Require Import Prelude JsString Parser Calendar JsDate Intl.

Local Open Scope Z_scope.

Module Render.
Import TzParser IntlDTF EcmaDate.

(** ** The data written into the DOM *)

(** A [<td>] of a zone column: its [innerHTML] and whether it has the
    class [working-hours]. *)
Record cell := mk_cell { td_html : string; td_working : bool }.

(** A [<tr>]: the text of its first cell and the cells of the zones. *)
Record row := mk_row { row_hour : string; row_cells : list cell }.

(** A [<details>] section of one day. *)
Record day_section := mk_day {
  day_today : bool;           (** class [today] *)
  day_open : bool;            (** [details.open] *)
  day_summary : string;       (** [summary.textContent] *)
  day_headers : list string;  (** [th.textContent] of the zone columns *)
  day_rows : list row
}.

(** The state the loop changes: the children of [days-container] and the
    number of [new Date()] calls made so far. *)
Record rstate := mk_rstate { container : list day_section; ticks : nat }.

(** ** The state and error monad *)

Definition M (A : Type) : Type := rstate -> result A * rstate.

Definition ret {A} (a : A) : M A := fun s => (Ok a, s).

Definition bind {A B} (c : M A) (k : A -> M B) : M B :=
  fun s => match c s with
           | (Ok a, s') => k a s'
           | (Throw e, s') => (Throw e, s')
           end.

(** A computation of the helpers, which may throw and changes nothing. *)
Definition lift {A} (r : result A) : M A := fun s => (r, s).

Declare Scope render_scope.
Delimit Scope render_scope with render.
Notation "'do' x <- c ; k" := (bind c (fun x => k))
  (at level 10, x name, c at level 100, k at level 200) : render_scope.
Open Scope render_scope.

(** [forEach]/[map] with a callback in [M]. *)
Fixpoint forEachM {A B} (f : A -> M B) (xs : list A) : M (list B) :=
  match xs with
  | [] => ret []
  | x :: xs' => do y <- f x ; do ys <- forEachM f xs' ; ret (y :: ys)
  end.

(** [container.innerHTML = ''] *)
Definition clear_container : M unit := fun s => (Ok tt, mk_rstate [] (ticks s)).

(** [container.appendChild(details)] *)
Definition append_day (d : day_section) : M unit :=
  fun s => (Ok tt, mk_rstate (container s ++ [d]) (ticks s)).

Section Loop.

Context `{Intl : IntlService}.

(** The offset of the viewer's local time and the clock. *)
Context (LocalTZA : Z) (clock : nat -> Z).

(** [new Date()] *)
Definition new_Date : M Z := fun s => (Ok (clock (ticks s)), mk_rstate (container s) (S (ticks s))).

(** ** The loop body *)

Definition dq : string := String "034"%char EmptyString.

(** [<span class="time-display">${time}</span>], line 187. *)
Definition span_time (time : string) : string :=
  "<span class=" +:+ dq +:+ "time-display" +:+ dq +:+ ">" +:+ time +:+ "</span>".

(** [<span class="time-display">${time}<span class="tz-abbr">${abbr}</span></span>], line 189. *)
Definition span_time_abbr (time abbr : string) : string :=
  "<span class=" +:+ dq +:+ "time-display" +:+ dq +:+ ">" +:+ time +:+
  "<span class=" +:+ dq +:+ "tz-abbr" +:+ dq +:+ ">" +:+ abbr +:+ "</span></span>".

(** [th.textContent = tzObj.customLabel] of a pure offset (a [null] label
    would read as the empty string). *)
Definition label_text (l : option string) : string := default "" l.

(** The header of a column, lines 148-158. *)
Definition header_cell (tzObj : tz_obj) : M string :=
  if isPureOffset tzObj then ret (label_text (customLabel tzObj))
  else
    do sampleDate <- new_Date ;
    do abbr <- lift (getTimezoneAbbr sampleDate (timezone tzObj)) ;
    let location :=
      if truthy (customLabel tzObj) then label_text (customLabel tzObj)
      else getFriendlyLocation (timezone tzObj) in
    ret (abbr +:+ " (" +:+ location +:+ ")").

(** The cell of a column at [hourDate], lines 181-197. *)
Definition make_cell (hourDate : Z) (tzObj : tz_obj) : result cell :=
  let! ta := formatTime hourDate (timezone tzObj) in
  let html := if isPureOffset tzObj then span_time ta.1 else span_time_abbr ta.1 ta.2 in
  let! working := isWorkingHours hourDate (timezone tzObj) in
  Ok {| td_html := html; td_working := working |}.

(** The row of [hour], lines 172-199: [hourDate = new Date(dayDate);
    hourDate.setHours(hour)]. *)
Definition make_row (timezones : list tz_obj) (dayDate hour : Z) : result row :=
  let hourDate := setHours LocalTZA dayDate hour in
  let! cells := mapM (make_cell hourDate) timezones in
  Ok {| row_hour := pad2 hour +:+ ":00"; row_cells := cells |}.

(** [for (let hour = startHour; hour < 24; hour++)]. *)
Definition hour_range (startHour : Z) : list Z :=
  (fun k => startHour + Z.of_nat k) <$> seq 0 (Z.to_nat (24 - startHour)).

(** [dayDate = new Date(now); dayDate.setDate(dayDate.getDate() + dayOffset);
    dayDate.setHours(0, 0, 0, 0)], lines 116-118. *)
Definition day_date (now dayOffset : Z) : Z :=
  setHours4 LocalTZA (setDate LocalTZA now (getDate LocalTZA now + dayOffset)) 0 0 0 0.

(** One iteration of the day loop, lines 116-205. *)
Definition render_day (timezones : list tz_obj) (now dayOffset : Z) : M unit :=
  let dayDate := day_date now dayOffset in
  do today <- new_Date ;
  let is_today := isToday LocalTZA today dayDate in
  let opened := is_today || (dayOffset =? 1) in
  do summary <- lift (formatDate LocalTZA dayDate) ;
  do headers <- forEachM header_cell timezones ;
  let startHour := if dayOffset =? 0 then getHours LocalTZA now else 0 in
  do rows <- lift (mapM (make_row timezones dayDate) (hour_range startHour)) ;
  append_day {| day_today := is_today; day_open := opened; day_summary := summary;
                day_headers := headers; day_rows := rows |}.

(** The fifteen day offsets, [for (let dayOffset = 0; dayOffset < 15; dayOffset++)]. *)
Definition day_offsets : list Z := Z.of_nat <$> seq 0 15.

(** [renderTable()], given the value of the [tz] parameter. *)
Definition renderTable (tzParam : option string) : M unit :=
  let timezones := getTimezones tzParam in
  do _ <- clear_container ;
  do now <- new_Date ;
  do _ <- forEachM (render_day timezones now) day_offsets ;
  ret tt.

End Loop.


(** ** The grid the loop builds, as a function *)

Section Spec.

Context `{Intl : IntlService} (LocalTZA : Z) (clock : nat -> Z).

(** The clock reads of a column's header: one for a labelled column. *)
Definition reads (c : tz_obj) : nat := if isPureOffset c then 0 else 1.
Definition col_reads (cols : list tz_obj) : nat := sum_list_with reads cols.

(** Every column's zone is one the Intl service knows. *)
Definition all_valid (cols : list tz_obj) : Prop :=
  Forall (fun c => is_valid_tz (timezone c) = true) cols.

(** The abbreviation [getTimezoneAbbr] returns for a known zone. *)
Definition abbr_at (t : Z) (tz : string) : string :=
  match List.find (fun p => bool_decide (part_type p = "timeZoneName"))
          (formatToParts (mk_dtf tz OptTimeZoneName) t) with
  | Some tzPart => part_value tzPart
  | None => ""
  end.

Definition header_spec (t : Z) (c : tz_obj) : string :=
  if isPureOffset c then label_text (customLabel c)
  else abbr_at t (timezone c) +:+ " (" +:+
       (if truthy (customLabel c) then label_text (customLabel c) else getFriendlyLocation (timezone c)) +:+
       ")".

(** The headers of the columns, the first labelled one reading the clock
    at [n]. *)
Fixpoint headers_spec (n : nat) (cols : list tz_obj) : list string :=
  match cols with
  | [] => []
  | c :: cs => header_spec (clock n) c :: headers_spec (n + reads c) cs
  end.

Definition cell_spec (t : Z) (c : tz_obj) : cell :=
  let time := format (mk_dtf (timezone c) OptHourMinute) t in
  {| td_html := if isPureOffset c then span_time time else span_time_abbr time (abbr_at t (timezone c));
     td_working := working_hour (parseInt (format (mk_dtf (timezone c) OptHourNumeric) t)) |}.

Definition row_spec (cols : list tz_obj) (dayDate hour : Z) : row :=
  {| row_hour := pad2 hour +:+ ":00";
     row_cells := cell_spec (setHours LocalTZA dayDate hour) <$> cols |}.

(** The value of [formatDate], which never throws (its formatters have no
    [timeZone]). *)
Definition summary_spec (dayDate : Z) : string :=
  match formatDate LocalTZA dayDate with Ok s => s | Throw _ => "" end.

(** The section of day [k], its [isToday] reading the clock at [n]. *)
Definition day_spec (cols : list tz_obj) (now k : Z) (n : nat) : day_section :=
  let dayDate := day_date LocalTZA now k in
  let is_today := isToday LocalTZA (clock n) dayDate in
  {| day_today := is_today;
     day_open := is_today || (k =? 1);
     day_summary := summary_spec dayDate;
     day_headers := headers_spec (S n) cols;
     day_rows := row_spec cols dayDate <$> hour_range (if k =? 0 then getHours LocalTZA now else 0) |}.

Fixpoint days_spec (cols : list tz_obj) (now : Z) (ks : list Z) (n : nat) : list day_section :=
  match ks with
  | [] => []
  | k :: ks' => day_spec cols now k n :: days_spec cols now ks' (n + S (col_reads cols))
  end.

(** The grid of a render starting with [n] clock reads made. *)
Definition grid_spec (tzParam : option string) (n : nat) : list day_section :=
  days_spec (getTimezones tzParam) (clock n) day_offsets (S n).

End Spec.


(** ** The loop computes the grid *)

Section Refinement.

Context `{Intl : IntlService} (LocalTZA : Z) (clock : nat -> Z).

Lemma bind_run_Ok {A B} (c : M A) (k : A -> M B) (s s' : rstate) (a : A) :
  c s = (Ok a, s') -> bind c k s = k a s'.
Proof. intros H. unfold bind. by rewrite H. Qed.

Lemma bind_run_Throw {A B} (c : M A) (k : A -> M B) (s s' : rstate) (e : js_error) :
  c s = (Throw e, s') -> bind c k s = (Throw e, s').
Proof. intros H. unfold bind. by rewrite H. Qed.

Lemma header_cell_valid (c : tz_obj) (s : rstate) :
  is_valid_tz (timezone c) = true ->
  header_cell clock c s =
    (Ok (header_spec (clock (ticks s)) c), mk_rstate (container s) (ticks s + reads c)).
Proof.
  intros Hv. unfold header_cell, header_spec, reads. destruct (isPureOffset c).
  - destruct s as [cs n]. unfold ret. simpl. by rewrite Nat.add_0_r.
  - erewrite bind_run_Ok by reflexivity. simpl.
    erewrite bind_run_Ok.
    2: { unfold lift, getTimezoneAbbr. rewrite DateTimeFormat_valid by done. reflexivity. }
    unfold ret. simpl. by rewrite Nat.add_1_r.
Qed.

Lemma headers_valid (cols : list tz_obj) (s : rstate) :
  all_valid cols ->
  forEachM (header_cell clock) cols s =
    (Ok (headers_spec clock (ticks s) cols), mk_rstate (container s) (ticks s + col_reads cols)).
Proof.
  revert s. induction cols as [|c cs IH]; intros s Hv; simpl.
  - destruct s as [cs n]. unfold ret. simpl. by rewrite Nat.add_0_r.
  - apply Forall_cons in Hv as [Hc Hcs].
    erewrite bind_run_Ok by (apply header_cell_valid; done).
    erewrite bind_run_Ok by (apply IH; done).
    unfold ret, col_reads. simpl. by rewrite Nat.add_assoc.
Qed.

Lemma make_cell_valid (t : Z) (c : tz_obj) :
  is_valid_tz (timezone c) = true -> make_cell t c = Ok (cell_spec t c).
Proof.
  intros Hv. unfold make_cell, cell_spec, formatTime, getTimezoneAbbr, isWorkingHours, getHourInTimezone.
  by rewrite !DateTimeFormat_valid.
Qed.

Lemma make_row_valid (cols : list tz_obj) (dayDate h : Z) :
  all_valid cols -> make_row LocalTZA cols dayDate h = Ok (row_spec LocalTZA cols dayDate h).
Proof.
  intros Hv. unfold make_row, row_spec.
  rewrite (mapM_Ok_map _ (cell_spec (setHours LocalTZA dayDate h))); [done|].
  intros c Hc. apply make_cell_valid. unfold all_valid in Hv. rewrite Forall_forall in Hv. by apply Hv.
Qed.

Lemma render_day_valid (cols : list tz_obj) (now k : Z) (s : rstate) :
  all_valid cols ->
  render_day LocalTZA clock cols now k s =
    (Ok tt, mk_rstate (container s ++ [day_spec LocalTZA clock cols now k (ticks s)])
                      (ticks s + S (col_reads cols))).
Proof.
  intros Hv. unfold render_day, day_spec, summary_spec. cbv zeta.
  destruct (formatDate_ok LocalTZA (day_date LocalTZA now k)) as [str Hstr].
  erewrite bind_run_Ok by reflexivity.
  erewrite bind_run_Ok by (unfold lift; rewrite Hstr; reflexivity).
  erewrite bind_run_Ok by (apply headers_valid; done).
  erewrite bind_run_Ok.
  2: { unfold lift. rewrite (mapM_Ok_map _ (row_spec LocalTZA cols (day_date LocalTZA now k))); [done|].
       intros h _. by apply make_row_valid. }
  unfold append_day. cbn [container ticks]. by rewrite Hstr, Nat.add_succ_comm.
Qed.

Lemma days_valid (cols : list tz_obj) (now : Z) (ks : list Z) (s : rstate) :
  all_valid cols ->
  forEachM (render_day LocalTZA clock cols now) ks s =
    (Ok ((fun _ => tt) <$> ks),
     mk_rstate (container s ++ days_spec LocalTZA clock cols now ks (ticks s))
               (ticks s + length ks * S (col_reads cols))).
Proof.
  intros Hv. revert s. induction ks as [|k ks IH]; intros s; simpl.
  - destruct s as [cs n]. unfold ret. simpl. by rewrite app_nil_r, Nat.add_0_r.
  - erewrite bind_run_Ok by (apply render_day_valid; done).
    erewrite bind_run_Ok by (apply IH).
    unfold ret. cbn [container ticks]. f_equal. f_equal; [by rewrite <- app_assoc | simpl; lia].
Qed.

(** When every column's zone is known, the loop computes [grid_spec]. *)
Lemma renderTable_valid_run (tzParam : option string) (s : rstate) :
  all_valid (getTimezones tzParam) ->
  renderTable LocalTZA clock tzParam s =
    (Ok tt, mk_rstate (grid_spec LocalTZA clock tzParam (ticks s))
                      (S (ticks s) + 15 * S (col_reads (getTimezones tzParam)))).
Proof.
  intros Hv. unfold renderTable, grid_spec. cbv zeta.
  erewrite bind_run_Ok by reflexivity.
  erewrite bind_run_Ok by reflexivity.
  erewrite bind_run_Ok by (apply days_valid; done).
  done.
Qed.

End Refinement.

(** ** Laws of the specification *)

Section SpecLaws.

Context `{Intl : IntlService} (LocalTZA : Z) (clock : nat -> Z).

(** The local midnight of day [k] is [k] days after the local day of [now]. *)
Lemma day_date_day (now k : Z) :
  LocalTime LocalTZA (day_date LocalTZA now k) = (Day (LocalTime LocalTZA now) + k) * msPerDay.
Proof.
  unfold day_date. rewrite LocalTime_setHours4, Day_setDate. unfold MakeDate, MakeTime. lia.
Qed.

Lemma length_hour_range (h : Z) : 0 <= h <= 24 -> Z.of_nat (length (hour_range h)) = 24 - h.
Proof. intros Hh. unfold hour_range. rewrite length_fmap, length_seq. lia. Qed.

Lemma lookup_hour_range (h : Z) (j : nat) (x : Z) : hour_range h !! j = Some x -> x = h + Z.of_nat j.
Proof.
  unfold hour_range. rewrite list_lookup_fmap. destruct (seq 0 _ !! j) eqn:E; [|done].
  apply lookup_seq in E as [-> _]. by intros [= <-].
Qed.

Lemma length_days_spec (cols : list tz_obj) (now : Z) (ks : list Z) (n : nat) :
  length (days_spec LocalTZA clock cols now ks n) = length ks.
Proof. revert n. induction ks; intros n; simpl; [done|]. by rewrite IHks. Qed.

Lemma lookup_days_spec (cols : list tz_obj) (now : Z) (ks : list Z) (n i : nat) :
  days_spec LocalTZA clock cols now ks n !! i =
    (fun k => day_spec LocalTZA clock cols now k (n + i * S (col_reads cols))) <$> ks !! i.
Proof.
  revert n i. induction ks as [|k ks IH]; intros n i; simpl; [done|].
  destruct i as [|i]; simpl; [by rewrite Nat.add_0_r|].
  rewrite IH.
  replace (n + S (col_reads cols) + i * S (col_reads cols))%nat
    with (n + S i * S (col_reads cols))%nat by lia.
  done.
Qed.

Lemma lookup_day_offsets (i : nat) (k : Z) : day_offsets !! i = Some k -> k = Z.of_nat i /\ (i < 15)%nat.
Proof.
  unfold day_offsets. rewrite list_lookup_fmap. destruct (seq 0 15 !! i) eqn:E; [|done].
  apply lookup_seq in E as [-> ?]. by intros [= <-].
Qed.

Lemma length_headers_spec (n : nat) (cols : list tz_obj) :
  length (headers_spec clock n cols) = length cols.
Proof. revert n. induction cols; intros n; simpl; [done|]. by rewrite IHcols. Qed.

End SpecLaws.

(** ** The loop on an unknown zone *)

Section Abort.

Context `{Intl : IntlService} (LocalTZA : Z) (clock : nat -> Z).

(** The error of an unknown zone among the columns. *)
Definition zone_error (cols : list tz_obj) (e : js_error) : Prop :=
  exists c, c ∈ cols /\ is_valid_tz (timezone c) = false /\
            e = RangeError ("Invalid time zone specified: " +:+ timezone c).

Lemma header_cell_run (c : tz_obj) (st st' : rstate) (r : result string) :
  header_cell clock c st = (r, st') ->
  container st' = container st /\ (forall e, r = Throw e -> zone_error [c] e).
Proof.
  unfold header_cell. destruct (isPureOffset c).
  - unfold ret. intros [= <- <-]. done.
  - unfold bind, new_Date, lift, ret. simpl.
    destruct (is_valid_tz (timezone c)) eqn:Hv.
    + unfold getTimezoneAbbr. rewrite DateTimeFormat_valid by done. simpl. intros [= <- <-]. done.
    + rewrite getTimezoneAbbr_invalid by done. intros [= <- <-]. split; [done|].
      intros e [= <-]. exists c. split_and!; [by apply list_elem_of_singleton | done | done].
Qed.

Lemma headers_run (cols : list tz_obj) (st st' : rstate) (r : result (list string)) :
  forEachM (header_cell clock) cols st = (r, st') ->
  container st' = container st /\ (forall e, r = Throw e -> zone_error cols e).
Proof.
  revert st st' r. induction cols as [|c cs IH]; intros st st' r; simpl.
  - unfold ret. intros [= <- <-]. done.
  - unfold bind at 1. destruct (header_cell clock c st) as [[h|e] st1] eqn:Hc;
      destruct (header_cell_run c st st1 _ Hc) as [Hst1 Herr].
    + unfold bind. destruct (forEachM (header_cell clock) cs st1) as [[hs|e] st2] eqn:Hcs;
        destruct (IH st1 st2 _ Hcs) as [Hst2 Herr2].
      * unfold ret. intros [= <- <-]. split; [congruence | done].
      * intros [= <- <-]. split; [congruence|]. intros e' [= <-].
        destruct (Herr2 e eq_refl) as (c' & Hin & Hv & He). exists c'. split; [|done].
        by apply elem_of_cons; right.
    + intros [= <- <-]. split; [done|]. intros e' [= <-].
      destruct (Herr e eq_refl) as (c' & Hin & Hv & He). exists c'. split; [|done].
      apply list_elem_of_singleton in Hin as ->. by apply elem_of_cons; left.
Qed.

Lemma make_cell_Throw (t : Z) (c : tz_obj) (e : js_error) :
  make_cell t c = Throw e -> zone_error [c] e.
Proof.
  unfold make_cell. destruct (is_valid_tz (timezone c)) eqn:Hv.
  - destruct (formatTime_valid t (timezone c) Hv) as [abbr ->]. simpl.
    unfold isWorkingHours, getHourInTimezone. by rewrite DateTimeFormat_valid.
  - rewrite formatTime_invalid by done. intros [= <-].
    exists c. split_and!; [by apply list_elem_of_singleton | done | done].
Qed.

Lemma make_cell_invalid (t : Z) (c : tz_obj) :
  is_valid_tz (timezone c) = false -> exists e, make_cell t c = Throw e.
Proof. intros Hv. unfold make_cell. rewrite formatTime_invalid by done. eauto. Qed.

Lemma make_row_Throw (cols : list tz_obj) (dayDate h : Z) (e : js_error) :
  make_row LocalTZA cols dayDate h = Throw e -> zone_error cols e.
Proof.
  unfold make_row. cbv zeta.
  destruct (mapM (make_cell (setHours LocalTZA dayDate h)) cols) as [cells|e'] eqn:Hcells; [done|].
  intros [= <-]. destruct (mapM_Throw_elem _ _ _ Hcells) as (c & Hin & Hc).
  destruct (make_cell_Throw _ _ _ Hc) as (c' & ->%list_elem_of_singleton & Hv & He).
  by exists c.
Qed.

Lemma make_row_invalid (cols : list tz_obj) (dayDate h : Z) (c : tz_obj) :
  c ∈ cols -> is_valid_tz (timezone c) = false -> exists e, make_row LocalTZA cols dayDate h = Throw e.
Proof.
  intros Hin Hv. unfold make_row. cbv zeta.
  destruct (make_cell_invalid (setHours LocalTZA dayDate h) c Hv) as [e0 He0].
  destruct (proj2 (mapM_Throw_iff (make_cell (setHours LocalTZA dayDate h)) cols)
              (ex_intro _ c (ex_intro _ e0 (conj Hin He0)))) as [e He].
  rewrite He. eauto.
Qed.

Lemma hour_range_start (h : Z) : 0 <= h < 24 -> h ∈ hour_range h.
Proof.
  intros Hh. unfold hour_range. apply list_elem_of_fmap. exists 0%nat. split; [lia|].
  apply list_elem_of_In, in_seq. lia.
Qed.

(** Day 0 throws on an unknown zone, before its section is appended. *)
Lemma render_day0_invalid (cols : list tz_obj) (now : Z) (st : rstate) (c : tz_obj) :
  c ∈ cols -> is_valid_tz (timezone c) = false ->
  exists e st', render_day LocalTZA clock cols now 0 st = (Throw e, st') /\
                container st' = container st /\ zone_error cols e.
Proof.
  intros Hin Hv. unfold render_day. cbv zeta.
  erewrite bind_run_Ok by reflexivity.
  destruct (formatDate_ok LocalTZA (day_date LocalTZA now 0)) as [str Hstr].
  erewrite bind_run_Ok by (unfold lift; rewrite Hstr; reflexivity).
  set (st1 := mk_rstate (container st) (S (ticks st))).
  destruct (forEachM (header_cell clock) cols st1) as [[hs|e] st2] eqn:Hh;
    destruct (headers_run cols st1 st2 _ Hh) as [Hst2 Herr].
  - erewrite bind_run_Ok by exact Hh.
    set (hours := hour_range (if 0 =? 0 then getHours LocalTZA now else 0)).
    assert (Hh0 : getHours LocalTZA now ∈ hours) by (apply hour_range_start, getHours_range).
    destruct (make_row_invalid cols (day_date LocalTZA now 0) (getHours LocalTZA now) c Hin Hv)
      as [e0 He0].
    destruct (proj2 (mapM_Throw_iff (make_row LocalTZA cols (day_date LocalTZA now 0)) hours)
                (ex_intro _ _ (ex_intro _ e0 (conj Hh0 He0)))) as [e Hrows].
    erewrite bind_run_Throw by (unfold lift; rewrite Hrows; reflexivity).
    eexists _, _. split; [reflexivity|]. split; [done|].
    destruct (mapM_Throw_elem _ _ _ Hrows) as (h & _ & Hrow). by eapply make_row_Throw.
  - erewrite bind_run_Throw by exact Hh. eexists _, _. split; [reflexivity|]. split; [done|].
    by apply Herr.
Qed.

(** A render with an unknown zone throws that zone's [RangeError] and
    leaves the container empty. *)
Lemma renderTable_invalid_run (tzParam : option string) (s : rstate) (c : tz_obj) :
  c ∈ getTimezones tzParam -> is_valid_tz (timezone c) = false ->
  exists e n, renderTable LocalTZA clock tzParam s = (Throw e, mk_rstate [] n) /\
              zone_error (getTimezones tzParam) e.
Proof.
  intros Hin Hv. unfold renderTable. cbv zeta.
  erewrite bind_run_Ok by reflexivity. erewrite bind_run_Ok by reflexivity.
  destruct (render_day0_invalid (getTimezones tzParam) (clock (ticks s))
              (mk_rstate [] (S (ticks s))) c Hin Hv) as (e & st' & Hrun & Hst' & He).
  unfold day_offsets. simpl forEachM.
  erewrite bind_run_Throw by (erewrite bind_run_Throw by exact Hrun; reflexivity).
  exists e, (ticks st'). split; [|done]. destruct st' as [cs n]. simpl in *. by subst.
Qed.

(** C3: a render either returns normally, exactly when every column's
    zone is one the Intl service knows, and then the container holds the
    grid of [grid_spec] (fifteen day sections, every header, row and cell
    as specified); or it throws the [RangeError] of an unknown zone of the
    columns and the container is left empty: no partial grid is shown. *)
Theorem renderTable_spec (tzParam : option string) (s : rstate) :
  match renderTable LocalTZA clock tzParam s with
  | (Ok _, st) =>
      all_valid (getTimezones tzParam) /\ container st = grid_spec LocalTZA clock tzParam (ticks s)
  | (Throw e, st) =>
      zone_error (getTimezones tzParam) e /\ container st = []
  end.
Proof.
  destruct (decide (all_valid (getTimezones tzParam))) as [Hv|Hnv].
  - by rewrite renderTable_valid_run.
  - unfold all_valid in Hnv. apply not_Forall_Exists in Hnv; [|apply _].
    apply Exists_exists in Hnv as (c & Hin & Hc). apply not_true_is_false in Hc.
    destruct (renderTable_invalid_run tzParam s c Hin Hc) as (e & n & -> & He).
    done.
Qed.

(** C11: a blank token of the parameter (between two commas, or after a
    trailing comma as in [?tz=Europe/Paris,]) is not skipped: [getTimezones]
    gives it a column of its own, at its position, whose zone is the empty
    string; since [Intl.DateTimeFormat] knows no zone [""], the render
    throws a zone's [RangeError] and leaves the container empty, so the
    page shows no day at all. *)
Theorem renderTable_blank_token (toks : list string) (i : nat) (w : string) (s : rstate) :
  Forall (fun t => js_includes "," t = false) toks -> js_join "," toks <> "" ->
  toks !! i = Some w -> all_ws w = true -> is_valid_tz "" = false ->
  getTimezones (Some (js_join "," toks)) !! i = Some (mk_tz_obj "" None false) /\
  exists e n, renderTable LocalTZA clock (Some (js_join "," toks)) s = (Throw e, mk_rstate [] n) /\
              zone_error (getTimezones (Some (js_join "," toks))) e.
Proof.
  intros Hfree Hne Hi Hw Hv.
  assert (Hcols : getTimezones (Some (js_join "," toks)) = parse_token <$> toks).
  { unfold getTimezones, truthy. rewrite bool_decide_false by done. simpl.
    rewrite js_split_join; [done | by intros -> | done]. }
  assert (Hc : getTimezones (Some (js_join "," toks)) !! i = Some (mk_tz_obj "" None false)).
  { rewrite Hcols, list_lookup_fmap, Hi. simpl. by rewrite parse_token_blank. }
  split; [exact Hc|]. exact (renderTable_invalid_run _ s _ (list_elem_of_lookup_2 _ _ _ Hc) Hv).
Qed.

End Abort.

(** ** Claims on the rendered grid *)

Section GridLaws.

Context `{Intl : IntlService} (LocalTZA : Z) (clock : nat -> Z).

Lemma grid_container (tzParam : option string) (s : rstate) :
  all_valid (getTimezones tzParam) ->
  container (snd (renderTable LocalTZA clock tzParam s)) = grid_spec LocalTZA clock tzParam (ticks s).
Proof. intros Hv. by rewrite renderTable_valid_run. Qed.

(** The section [i] of the grid of a render starting at [n] reads. *)
Lemma grid_spec_lookup (tzParam : option string) (n i : nat) (d : day_section) :
  grid_spec LocalTZA clock tzParam n !! i = Some d ->
  (i < 15)%nat /\
  d = day_spec LocalTZA clock (getTimezones tzParam) (clock n) (Z.of_nat i)
        (S n + i * S (col_reads (getTimezones tzParam))).
Proof.
  unfold grid_spec. rewrite lookup_days_spec.
  destruct (day_offsets !! i) as [k|] eqn:Hk; [|done]. simpl. intros [= <-].
  apply lookup_day_offsets in Hk as [-> Hi]. done.
Qed.

(** The day of the local midnight of day [k] is [k] days after [now]'s. *)
Lemma Day_day_date (now k : Z) :
  Day (LocalTime LocalTZA (day_date LocalTZA now k)) = Day (LocalTime LocalTZA now) + k.
Proof. rewrite day_date_day. unfold Day. apply Z.div_mul. unfold msPerDay. lia. Qed.

Lemma isToday_day_date (now k t : Z) :
  isToday LocalTZA t (day_date LocalTZA now k) =
    bool_decide (Day (LocalTime LocalTZA now) + k = Day (LocalTime LocalTZA t)).
Proof.
  rewrite <- Day_day_date.
  destruct (decide (Day (LocalTime LocalTZA (day_date LocalTZA now k)) = Day (LocalTime LocalTZA t)))
    as [E|E].
  - rewrite bool_decide_true by done. by apply isToday_iff.
  - rewrite bool_decide_false by done. apply not_true_is_false. by rewrite isToday_iff.
Qed.

(** C4: when the clock stays on the local day of the render's first
    reading, exactly the first section is marked [today], and the first
    two sections are open, the others closed. *)
Theorem renderTable_today (tzParam : option string) (s : rstate) :
  all_valid (getTimezones tzParam) ->
  (forall j, (ticks s <= j)%nat ->
     Day (LocalTime LocalTZA (clock j)) = Day (LocalTime LocalTZA (clock (ticks s)))) ->
  forall (i : nat) (d : day_section),
    container (snd (renderTable LocalTZA clock tzParam s)) !! i = Some d ->
    day_today d = bool_decide (i = 0%nat) /\ day_open d = bool_decide (i = 0%nat \/ i = 1%nat).
Proof.
  intros Hv Hclock i d. rewrite grid_container by done.
  intros [Hi ->]%grid_spec_lookup. unfold day_spec. cbn [day_today day_open].
  rewrite isToday_day_date.
  rewrite (Hclock (S (ticks s) + i * S (col_reads (getTimezones tzParam)))%nat) by lia.
  assert (Hb : bool_decide (Day (LocalTime LocalTZA (clock (ticks s))) + Z.of_nat i =
                            Day (LocalTime LocalTZA (clock (ticks s)))) = bool_decide (i = 0%nat)).
  { apply bool_decide_ext. lia. }
  rewrite Hb. split; [done|].
  destruct (decide (i = 0%nat)) as [->|H0]; [by rewrite !bool_decide_true by lia|].
  rewrite (bool_decide_false (i = 0%nat)) by done. simpl.
  destruct (decide (i = 1%nat)) as [->|H1]; [by rewrite bool_decide_true by lia|].
  rewrite bool_decide_false by lia. apply Z.eqb_neq. lia.
Qed.

(** The first hour of the rows of section [i]. *)
Definition start_hour (now : Z) (i : nat) : Z := if decide (i = 0%nat) then getHours LocalTZA now else 0.

Lemma start_hour_spec (now : Z) (i : nat) :
  (if Z.of_nat i =? 0 then getHours LocalTZA now else 0) = start_hour now i /\ 0 <= start_hour now i < 24.
Proof.
  unfold start_hour. pose proof (getHours_range LocalTZA now).
  destruct (decide (i = 0%nat)) as [->|Hi]; [done|].
  rewrite (proj2 (Z.eqb_neq _ _)) by lia. lia.
Qed.

(** C5: a successful render has fifteen sections; the first has one row
    per hour from the current local hour to 23, the others 24 rows; every
    section has one header per column and every row one cell per column. *)
Theorem renderTable_shape (tzParam : option string) (s : rstate) :
  all_valid (getTimezones tzParam) ->
  let days := container (snd (renderTable LocalTZA clock tzParam s)) in
  length days = 15%nat /\
  forall (i : nat) (d : day_section), days !! i = Some d ->
    Z.of_nat (length (day_rows d)) =
      (if decide (i = 0%nat) then 24 - getHours LocalTZA (clock (ticks s)) else 24) /\
    length (day_headers d) = length (getTimezones tzParam) /\
    Forall (fun r => length (row_cells r) = length (getTimezones tzParam)) (day_rows d).
Proof.
  intros Hv. cbv zeta. rewrite grid_container by done. split.
  - unfold grid_spec. by rewrite length_days_spec.
  - intros i d [Hi ->]%grid_spec_lookup. unfold day_spec. cbn [day_rows day_headers].
    destruct (start_hour_spec (clock (ticks s)) i) as [-> Hst].
    split_and!.
    + rewrite length_fmap, length_hour_range by lia. unfold start_hour. by case_decide.
    + apply length_headers_spec.
    + apply Forall_fmap, Forall_forall. intros h _. simpl. by rewrite length_fmap.
Qed.

(** C6: every cell of a successful render is computed at the instant of
    its row: on section [i], row [j] shows the hour [h] (from the start
    hour of the section) and its cell for column [c] is computed at the
    time [t] whose local time is [h] o'clock of the local day [i] days
    after the first reading; the cell is marked working exactly when the
    zone's wall-clock hour at [t] is in [8, 19), and shows the zone's
    formatted time, with the zone abbreviation unless the column is a pure
    offset. *)
Theorem renderTable_cells `{!IntlLaws Intl} (tzParam : option string) (s : rstate) :
  all_valid (getTimezones tzParam) ->
  forall (i j m : nat) (d : day_section) (r : row) (c : tz_obj) (cl : cell),
    container (snd (renderTable LocalTZA clock tzParam s)) !! i = Some d ->
    day_rows d !! j = Some r -> getTimezones tzParam !! m = Some c -> row_cells r !! m = Some cl ->
    let h := start_hour (clock (ticks s)) i + Z.of_nat j in
    exists t : Z,
      LocalTime LocalTZA t =
        (Day (LocalTime LocalTZA (clock (ticks s))) + Z.of_nat i) * msPerDay + h * msPerHour /\
      row_hour r = pad2 h +:+ ":00" /\
      td_working cl = bool_decide (8 <= zone_hour (timezone c) t < 19) /\
      td_html cl =
        (if isPureOffset c then span_time (format (mk_dtf (timezone c) OptHourMinute) t)
         else span_time_abbr (format (mk_dtf (timezone c) OptHourMinute) t) (abbr_at t (timezone c))).
Proof.
  intros Hv i j m d r c cl. rewrite grid_container by done.
  intros [Hi ->]%grid_spec_lookup Hr Hc Hcl. cbv zeta.
  unfold day_spec in Hr. cbn [day_rows] in Hr.
  destruct (start_hour_spec (clock (ticks s)) i) as [Hsh Hst]. rewrite Hsh in Hr.
  rewrite list_lookup_fmap in Hr. apply fmap_Some in Hr as (hh & Ehh & ->).
  apply lookup_hour_range in Ehh as ->.
  unfold row_spec in Hcl. cbn [row_cells] in Hcl.
  rewrite list_lookup_fmap, Hc in Hcl. apply fmap_Some in Hcl as (c' & [= <-] & ->).
  eexists. split_and!.
  - apply LocalTime_setHours_midnight, day_date_day.
  - reflexivity.
  - apply working_hour_format. by apply (Forall_lookup_1 _ _ _ _ Hv Hc).
  - reflexivity.
Qed.

(** C12: the [today] mark of a section compares its local midnight with a
    later clock reading, the one [isToday] makes, not with the render's
    first reading: if midnight passes between the two, the first section
    (whose rows start at the hour of the first reading) is not marked
    [today] and the second one is. *)
Theorem renderTable_today_reading (tzParam : option string) (s : rstate) :
  all_valid (getTimezones tzParam) ->
  forall (i : nat) (d : day_section),
    container (snd (renderTable LocalTZA clock tzParam s)) !! i = Some d ->
    day_today d =
      bool_decide (Day (LocalTime LocalTZA
                          (clock (S (ticks s) + i * S (col_reads (getTimezones tzParam)))%nat)) =
                   Day (LocalTime LocalTZA (clock (ticks s))) + Z.of_nat i).
Proof.
  intros Hv i d. rewrite grid_container by done.
  intros [Hi ->]%grid_spec_lookup. unfold day_spec. cbn [day_today].
  rewrite isToday_day_date. apply bool_decide_ext. lia.
Qed.

(** C13: a render does not depend on what the container held before: it
    empties the container first, so rendering again gives the same result
    and the same page. *)
Theorem renderTable_rerender (tzParam : option string) (cs1 cs2 : list day_section) (n : nat) :
  renderTable LocalTZA clock tzParam (mk_rstate cs1 n) =
  renderTable LocalTZA clock tzParam (mk_rstate cs2 n).
Proof.
  unfold renderTable. cbv zeta.
  erewrite bind_run_Ok by reflexivity. symmetry. erewrite bind_run_Ok by reflexivity. done.
Qed.

End GridLaws.

(** ** Renders under the [Etc/*] Intl service

    The viewer's local zone is UTC ([LocalTZA = 0], the service's default
    zone), the columns are [?tz=+4, Etc/GMT-2] and the clock reads
    2025-11-09 10:00 UTC ([ex_clock], frozen) or crosses midnight between
    the first and the second reading ([ex_clock_midnight]). *)
Section Examples.

Import EtcZones.

Definition ex_param : option string := Some "+4, Etc/GMT-2".
Definition ex_clock (n : nat) : Z := 1762682400000.
Definition ex_clock_midnight (n : nat) : Z :=
  match n with O => 1762731000000 | S _ => 1762734600000 end.

Definition ex_days : list day_section :=
  Eval vm_compute in container (snd (renderTable 0 ex_clock ex_param (mk_rstate [] 0))).
Definition ex_days_midnight : list day_section :=
  Eval vm_compute in container (snd (renderTable 0 ex_clock_midnight ex_param (mk_rstate [] 0))).

Definition ex_blank_day : day_section := mk_day false false "" [] [].
Definition ex_day0 : day_section := nth 0 ex_days ex_blank_day.
Definition ex_row0 : row := nth 0 (day_rows ex_day0) (mk_row "" []).
Definition ex_col1 : tz_obj := nth 1 (getTimezones ex_param) (mk_tz_obj "" None false).
Definition ex_cell01 : cell := nth 1 (row_cells ex_row0) (mk_cell "" false).

Lemma ex_param_valid : all_valid (getTimezones ex_param).
Proof. apply (bool_decide_unpack _). by vm_compute. Qed.

Lemma ex_days_run : container (snd (renderTable 0 ex_clock ex_param (mk_rstate [] 0))) = ex_days.
Proof. vm_compute. reflexivity. Qed.

Lemma ex_days_midnight_run :
  container (snd (renderTable 0 ex_clock_midnight ex_param (mk_rstate [] 0))) = ex_days_midnight.
Proof. vm_compute. reflexivity. Qed.

(** With a frozen clock, the first section is today's and is open. *)
Lemma renderTable_today_witness :
  ex_days !! 0%nat = Some ex_day0 /\ day_today ex_day0 = true /\ day_open ex_day0 = true.
Proof.
  assert (Hd : ex_days !! 0%nat = Some ex_day0) by (vm_compute; reflexivity).
  split; [exact Hd|]. rewrite <- ex_days_run in Hd.
  destruct (renderTable_today 0 ex_clock ex_param (mk_rstate [] 0) ex_param_valid
              (fun j _ => eq_refl) 0 ex_day0 Hd) as [-> ->].
  split; reflexivity.
Defined.

(** At 10:00 the first section has the fourteen rows from 10:00 to 23:00. *)
Lemma renderTable_shape_witness :
  length ex_days = 15%nat /\ ex_days !! 0%nat = Some ex_day0 /\ length (day_rows ex_day0) = 14%nat.
Proof.
  assert (Hd : ex_days !! 0%nat = Some ex_day0) by (vm_compute; reflexivity).
  destruct (renderTable_shape 0 ex_clock ex_param (mk_rstate [] 0) ex_param_valid) as [Hl Hi].
  rewrite ex_days_run in Hl, Hi. destruct (Hi 0%nat ex_day0 Hd) as [Hr _].
  change (Z.of_nat (length (day_rows ex_day0)) = 14) in Hr.
  split; [exact Hl|]. split; [exact Hd | lia].
Defined.

(** The cell of the 10:00 row for the [Etc/GMT-2] column. *)
Lemma renderTable_cells_witness :
  ex_days !! 0%nat = Some ex_day0 /\ day_rows ex_day0 !! 0%nat = Some ex_row0 /\
  getTimezones ex_param !! 1%nat = Some ex_col1 /\ row_cells ex_row0 !! 1%nat = Some ex_cell01 /\
  let h := start_hour 0 (ex_clock 0) 0 + Z.of_nat 0 in
  exists t : Z,
    LocalTime 0 t = (Day (LocalTime 0 (ex_clock 0)) + Z.of_nat 0) * msPerDay + h * msPerHour /\
    row_hour ex_row0 = pad2 h +:+ ":00" /\
    td_working ex_cell01 = bool_decide (8 <= zone_hour (timezone ex_col1) t < 19) /\
    td_html ex_cell01 =
      (if isPureOffset ex_col1 then span_time (format (mk_dtf (timezone ex_col1) OptHourMinute) t)
       else span_time_abbr (format (mk_dtf (timezone ex_col1) OptHourMinute) t)
              (abbr_at t (timezone ex_col1))).
Proof.
  assert (Hd : ex_days !! 0%nat = Some ex_day0) by (vm_compute; reflexivity).
  assert (Hr : day_rows ex_day0 !! 0%nat = Some ex_row0) by (vm_compute; reflexivity).
  assert (Hc : getTimezones ex_param !! 1%nat = Some ex_col1) by (vm_compute; reflexivity).
  assert (Hcl : row_cells ex_row0 !! 1%nat = Some ex_cell01) by (vm_compute; reflexivity).
  refine (conj Hd (conj Hr (conj Hc (conj Hcl _)))). rewrite <- ex_days_run in Hd.
  exact (renderTable_cells 0 ex_clock ex_param (mk_rstate [] 0) ex_param_valid 0 0 1
           ex_day0 ex_row0 ex_col1 ex_cell01 Hd Hr Hc Hcl).
Defined.

(** When the clock crosses midnight after the first reading, the first
    section is not marked [today] and the second one is. *)
Lemma renderTable_today_reading_witness :
  (exists d0, ex_days_midnight !! 0%nat = Some d0 /\ day_today d0 = false) /\
  (exists d1, ex_days_midnight !! 1%nat = Some d1 /\ day_today d1 = true).
Proof.
  pose proof (renderTable_today_reading 0 ex_clock_midnight ex_param (mk_rstate [] 0) ex_param_valid)
    as H.
  rewrite ex_days_midnight_run in H.
  split; [exists (nth 0 ex_days_midnight ex_blank_day) | exists (nth 1 ex_days_midnight ex_blank_day)].
  - split; [vm_compute; reflexivity|]. rewrite (H 0%nat); vm_compute; reflexivity.
  - split; [vm_compute; reflexivity|]. rewrite (H 1%nat); vm_compute; reflexivity.
Defined.

(** C17: a parameter that is one integer offset [z] renders only when
    [z] is in [-12, 14], the range of the [Etc/GMT] zones; any other
    offset, such as [+15] or [-13], aborts the render with the
    [RangeError] of the synthesised zone [Etc/GMT-15] or [Etc/GMT+13]. *)
Theorem renderTable_offset_range (LocalTZA : Z) (clk : nat -> Z) (t : string) (z : Z) (s : rstate) :
  is_int_literal t = true -> parseInt t = Some z ->
  fst (renderTable LocalTZA clk (Some t) s) =
    if (-12 <=? z) && (z <=? 14) then Ok tt
    else Throw (RangeError ("Invalid time zone specified: " +:+ etc_gmt (Some (- z)))).
Proof.
  intros Ht Hz. pose proof (getTimezones_literal t z Ht Hz) as Hcols.
  assert (Hv : is_valid_tz (etc_gmt (Some (- z))) = (-12 <=? z) && (z <=? 14)).
  { change (bool_decide (is_Some (etc_offset (etc_gmt (Some (- z))))) = (-12 <=? z) && (z <=? 14)).
    rewrite etc_offset_gmt. destruct ((-12 <=? z) && (z <=? 14)).
    - by apply bool_decide_eq_true. - by apply bool_decide_eq_false; intros []. }
  destruct ((-12 <=? z) && (z <=? 14)) eqn:Hb.
  - rewrite renderTable_valid_run; [reflexivity|]. rewrite Hcols. by repeat constructor.
  - destruct (renderTable_invalid_run LocalTZA clk (Some t) s _ ltac:(rewrite Hcols; left) Hv)
      as (e & n & -> & c & Hin & _ & ->).
    rewrite Hcols in Hin. by apply list_elem_of_singleton in Hin as ->.
Qed.

Lemma renderTable_offset_range_witness :
  (is_int_literal "+15" = true /\ parseInt "+15" = Some 15) /\
  fst (renderTable 0 ex_clock (Some "+15") (mk_rstate [] 0)) =
    Throw (RangeError "Invalid time zone specified: Etc/GMT-15").
Proof.
  split; [split; reflexivity|].
  rewrite (renderTable_offset_range 0 ex_clock "+15" 15 (mk_rstate [] 0) eq_refl eq_refl).
  vm_compute. reflexivity.
Defined.

(** A trailing comma: [?tz=Europe/Paris,]. *)
Lemma renderTable_blank_token_witness :
  (Forall (fun t => js_includes "," t = false) ["Europe/Paris"; ""] /\
   js_join "," ["Europe/Paris"; ""] <> "" /\ ["Europe/Paris"; ""] !! 1%nat = Some "" /\
   all_ws "" = true /\ is_valid_tz "" = false) /\
  getTimezones (Some "Europe/Paris,") !! 1%nat = Some (mk_tz_obj "" None false) /\
  exists e n, renderTable 0 ex_clock (Some "Europe/Paris,") (mk_rstate [] 0) = (Throw e, mk_rstate [] n) /\
              zone_error (getTimezones (Some "Europe/Paris,")) e.
Proof.
  split; [split_and!; [repeat constructor | done | reflexivity | reflexivity | reflexivity]|].
  exact (renderTable_blank_token 0 ex_clock ["Europe/Paris"; ""] 1 "" (mk_rstate [] 0)
           ltac:(repeat constructor) ltac:(done) eq_refl eq_refl eq_refl).
Defined.

End Examples.

(** ** The time values of an iteration *)

Section TimeBounds.

Context (LocalTZA : Z).

(** The arithmetic of the bounds: a local midnight [k < 15] days after
    the first reading, plus [h < 24] hours. *)
Lemma time_bounds_arith (now D k h dd hd : Z) :
  Z.abs LocalTZA <= msPerDay -> Z.abs now <= maxTime - 16 * msPerDay -> 0 <= k < 15 -> 0 <= h < 24 ->
  D * msPerDay <= LocalTime LocalTZA now < D * msPerDay + msPerDay ->
  LocalTime LocalTZA dd = (D + k) * msPerDay ->
  LocalTime LocalTZA hd = (D + k) * msPerDay + h * msPerHour ->
  Z.abs dd <= maxTime /\ Z.abs hd <= maxTime /\ Z.abs hd < 2 ^ 53.
Proof.
  unfold LocalTime, msPerDay, msPerHour, maxTime. intros.
  change (2 ^ 53) with 9007199254740992. lia.
Qed.

(** The time values an iteration builds, [dayDate] and every
    [hourDate], stay inside the range where TimeClip is the identity and
    below 2^53, where every integer is an exact double, as long as the
    first reading is 16 days inside that range and the local offset is
    at most a day: the model's exact integers are the program's doubles. *)
Theorem iteration_time_bounds (now k h : Z) :
  Z.abs LocalTZA <= msPerDay -> Z.abs now <= maxTime - 16 * msPerDay -> 0 <= k < 15 -> 0 <= h < 24 ->
  let dayDate := day_date LocalTZA now k in
  let hourDate := setHours LocalTZA dayDate h in
  TimeClip dayDate = Some dayDate /\ TimeClip hourDate = Some hourDate /\ Z.abs hourDate < 2 ^ 53.
Proof.
  intros Htza Hnow Hk Hh. cbv zeta.
  pose proof (day_date_day LocalTZA now k) as Hd.
  pose proof (LocalTime_setHours_midnight LocalTZA _ _ h Hd) as Hh'.
  destruct (time_bounds_arith now _ k h _ _ Htza Hnow Hk Hh (Day_bounds _) Hd Hh') as (B1 & B2 & B3).
  unfold TimeClip. rewrite (proj2 (Z.leb_le _ _) B1), (proj2 (Z.leb_le _ _) B2). auto.
Qed.

End TimeBounds.

End Render.
