(* ===== verification/DayLoop.v ===== *)
(** * The day loop of [renderTable] as a transition system

    [renderTable] ([src/script.js], lines 115-206) runs
    [for (let dayOffset = 0; dayOffset < 15; dayOffset++) { ... }]: each
    iteration builds a day section and appends it, and an exception of an
    iteration leaves the loop and the function.  [Grid.v] models the loop
    as [forEachM render_day day_offsets]; this file gives the same loop as
    a transition system, the way the statement executes: a state is
    [Running dayOffset st] (before the test of the loop condition), [Done
    st] (the loop has exited) or [Aborted e st] (an iteration threw [e]),
    and [step] has one rule per outcome of the loop test and of the body.

    The theorems: the transition system and the functional model agree on
    the final state (a lemma, through the uniqueness of the normal form of
    a deterministic relation); from any state the loop reaches [Done] or
    [Aborted] within [1 + (15 - dayOffset)] steps (liveness; since [step]
    is deterministic, this bounds every run); every reachable state
    satisfies the loop invariant (rule induction). *)

From S2P Require Import Prelude JsString Parser Calendar JsDate Intl Grid.

Local Open Scope Z_scope.

Module RenderLoop.
Import TzParser IntlDTF EcmaDate Render.

(** The states of the [for] statement. *)
Inductive loop_state :=
| Running (dayOffset : Z) (st : rstate)
| Done (st : rstate)
| Aborted (e : js_error) (st : rstate).

Definition final (x : loop_state) : bool :=
  match x with Running _ _ => false | _ => true end.

(** The final state of a run of the functional model. *)
Definition outcome {A} (r : result A * rstate) : loop_state :=
  match r with
  | (Ok _, st) => Done st
  | (Throw e, st) => Aborted e st
  end.

Section Steps.

Context `{Intl : IntlService} (LocalTZA : Z) (clock : nat -> Z).

(** The columns and the first reading [now] are fixed before the loop. *)
Context (cols : list tz_obj) (now : Z).

(** One step of the loop: the test [dayOffset < 15] and, when it holds,
    the whole body and the increment. *)
Inductive step : loop_state -> loop_state -> Prop :=
| step_day k st st' :
    k < 15 -> render_day LocalTZA clock cols now k st = (Ok tt, st') ->
    step (Running k st) (Running (k + 1) st')
| step_throw k st e st' :
    k < 15 -> render_day LocalTZA clock cols now k st = (Throw e, st') ->
    step (Running k st) (Aborted e st')
| step_exit k st :
    15 <= k -> step (Running k st) (Done st).

(** The state after [container.innerHTML = ''] and [now = new Date()]. *)
Definition loop_init (s : rstate) : loop_state := Running 0 (mk_rstate [] (S (ticks s))).

(** The loop invariant.  A day section [d] appended by iteration [j] has
    one header per column, the rows of the hours from its start hour, one
    cell per column in each row, and is open when it is today's or the
    second one. *)
Definition section_wf (j : Z) (d : day_section) : Prop :=
  length (day_headers d) = length cols /\
  Z.of_nat (length (day_rows d)) = (if j =? 0 then 24 - getHours LocalTZA now else 24) /\
  Forall (fun r => length (row_cells r) = length cols) (day_rows d) /\
  day_open d = day_today d || (j =? 1).

Definition sections_wf (cs : list day_section) : Prop :=
  forall (j : nat) (d : day_section), cs !! j = Some d -> section_wf (Z.of_nat j) d.

(** After [k] iterations from the initial reading index [t0], the
    container holds [k] well-formed sections and the clock has been read
    [1 + reads] times per iteration. *)
Definition loop_inv (t0 : nat) (x : loop_state) : Prop :=
  match x with
  | Running k st =>
      0 <= k <= 15 /\ length (container st) = Z.to_nat k /\ sections_wf (container st) /\
      ticks st = (t0 + Z.to_nat k * S (col_reads cols))%nat
  | Done st => length (container st) = 15%nat /\ sections_wf (container st)
  | Aborted e st =>
      (length (container st) < 15)%nat /\ sections_wf (container st) /\ zone_error cols e
  end.

(** ** One iteration *)

Lemma header_cell_Ok (c : tz_obj) (st st' : rstate) (h : string) :
  header_cell clock c st = (Ok h, st') -> ticks st' = (ticks st + reads c)%nat.
Proof.
  unfold header_cell, reads. destruct (isPureOffset c).
  - unfold ret. intros [= _ <-]. lia.
  - erewrite bind_run_Ok by reflexivity. unfold bind, lift.
    destruct (getTimezoneAbbr _ _); [|done]. unfold ret. intros [= _ <-]. simpl. lia.
Qed.

Lemma headers_Ok (cs : list tz_obj) (st st' : rstate) (hs : list string) :
  forEachM (header_cell clock) cs st = (Ok hs, st') ->
  length hs = length cs /\ ticks st' = (ticks st + col_reads cs)%nat.
Proof.
  revert st hs. induction cs as [|c cs IH]; intros st hs; simpl.
  - unfold ret. intros [= <- <-]. simpl. lia.
  - unfold bind at 1. destruct (header_cell clock c st) as [[h|e] st1] eqn:Hc; [|done].
    unfold bind. destruct (forEachM (header_cell clock) cs st1) as [[hs'|e] st2] eqn:Hcs; [|done].
    unfold ret. intros [= <- <-]. apply header_cell_Ok in Hc. apply IH in Hcs as [Hl Ht].
    unfold col_reads in *. simpl. split; lia.
Qed.

Lemma make_row_Ok (dayDate h : Z) (r : row) :
  make_row LocalTZA cols dayDate h = Ok r -> length (row_cells r) = length cols.
Proof.
  unfold make_row. cbv zeta.
  destruct (mapM (make_cell (setHours LocalTZA dayDate h)) cols) as [cells|e] eqn:Hc; [|done].
  intros [= <-]. simpl. by eapply mapM_length.
Qed.

(** What an iteration does: on success it appends one well-formed section
    and reads the clock [1 + reads] times; on an exception it appends
    nothing and the exception is the [RangeError] of a column's zone. *)
Lemma render_day_run (k : Z) (st st' : rstate) (r : result unit) :
  render_day LocalTZA clock cols now k st = (r, st') ->
  match r with
  | Ok _ => exists d, container st' = container st ++ [d] /\
                      ticks st' = (ticks st + S (col_reads cols))%nat /\ section_wf k d
  | Throw e => container st' = container st /\ zone_error cols e
  end.
Proof.
  unfold render_day. cbv zeta. erewrite bind_run_Ok by reflexivity.
  destruct (formatDate_ok LocalTZA (day_date LocalTZA now k)) as [str Hstr].
  erewrite bind_run_Ok by (unfold lift; rewrite Hstr; reflexivity).
  set (st1 := mk_rstate (container st) (S (ticks st))).
  destruct (forEachM (header_cell clock) cols st1) as [[hs|e] st2] eqn:Hh;
    destruct (headers_run clock cols st1 st2 _ Hh) as [Hc2 Herr].
  - erewrite bind_run_Ok by exact Hh. destruct (headers_Ok cols st1 st2 hs Hh) as [Hl Ht].
    destruct (mapM _ (hour_range _)) as [rows|e] eqn:Hr.
    + erewrite bind_run_Ok by reflexivity.
      unfold append_day. intros Heq. pair_inv Heq. subst r st'. eexists.
      unfold st1 in Ht, Hc2. cbn [container ticks] in *. unfold section_wf. split_and!; [by rewrite Hc2 | lia | ..].
      * exact Hl.
      * cbn [day_rows]. rewrite (mapM_length _ _ _ Hr). pose proof (getHours_range LocalTZA now).
        destruct (k =? 0); rewrite length_hour_range; lia.
      * cbn [day_rows]. apply mapM_Ok_iff in Hr.
        apply (Forall2_Forall_r _ _ _ _ Hr), Forall_forall. intros h _ row. apply make_row_Ok.
      * cbn [day_open day_today]. reflexivity.
    + erewrite bind_run_Throw by reflexivity. intros Heq. pair_inv Heq. subst r st'.
      split; [by rewrite Hc2|]. destruct (mapM_Throw_elem _ _ _ Hr) as (h & _ & He).
      by eapply make_row_Throw.
  - erewrite bind_run_Throw by exact Hh. intros Heq. pair_inv Heq. subst r st'. split; [by rewrite Hc2|]. by apply Herr.
Qed.

(** ** The transition system *)

Lemma step_det (x y z : loop_state) : step x y -> step x z -> y = z.
Proof. intros Hy Hz. destruct Hy; inversion Hz; subst; try lia; congruence. Qed.

Lemma final_nf (x : loop_state) : final x = true -> nf step x.
Proof. destruct x; [done| |]; intros _ [y Hy]; inversion Hy. Qed.

Lemma sections_wf_snoc (cs : list day_section) (d : day_section) :
  sections_wf cs -> section_wf (Z.of_nat (length cs)) d -> sections_wf (cs ++ [d]).
Proof.
  intros Hcs Hd j d'. rewrite lookup_snoc_Some.
  intros [[_ Hj] | [-> <-]]; [by apply Hcs | done].
Qed.

(** One step preserves the invariant. *)
Lemma step_inv (t0 : nat) (x y : loop_state) : loop_inv t0 x -> step x y -> loop_inv t0 y.
Proof.
  intros Hx Hs. destruct Hs as [k st st' Hk Hd | k st e st' Hk Hd | k st Hk];
    destruct Hx as (Hk0 & Hlen & Hwf & Ht); cbn [loop_inv].
  - apply render_day_run in Hd as (d & Hc & Ht' & Hd). rewrite Hc, Ht'.
    split_and!; [lia | lia | rewrite length_app, Hlen; simpl; lia | | rewrite Ht, Z2Nat.inj_add by lia; simpl; lia].
    apply sections_wf_snoc; [done|]. rewrite Hlen, Z2Nat.id by lia. done.
  - apply render_day_run in Hd as [Hc He]. rewrite Hc. split_and!; [lia | done | done].
  - split; [lia | done].
Qed.

(** One iteration of the functional model, as the transition system sees it. *)
Lemma outcome_forEachM_cons (k : Z) (ks : list Z) (st : rstate) :
  outcome (forEachM (render_day LocalTZA clock cols now) (k :: ks) st) =
  match render_day LocalTZA clock cols now k st with
  | (Ok _, st1) => outcome (forEachM (render_day LocalTZA clock cols now) ks st1)
  | (Throw e, st1) => Aborted e st1
  end.
Proof.
  cbn [forEachM]. unfold bind at 1.
  destruct (render_day LocalTZA clock cols now k st) as [[u|e] st1]; [|done].
  unfold bind. by destruct (forEachM (render_day LocalTZA clock cols now) ks st1) as [[ys|e] st2].
Qed.

(** From [Running k st], the loop reaches the final state of the
    functional model, in at most [1 + (15 - k)] steps. *)
Lemma loop_nsteps_outcome (n : nat) (k : Z) (st : rstate) :
  Z.to_nat (15 - k) = n ->
  exists m, (m <= S n)%nat /\
    nsteps step m (Running k st) (outcome (forEachM (render_day LocalTZA clock cols now) (seqZ k (15 - k)) st)).
Proof.
  revert k st. induction n as [|n IH]; intros k st Hn.
  - rewrite seqZ_nil by lia. exists 1%nat. split; [lia|]. apply nsteps_once. apply step_exit. lia.
  - rewrite seqZ_cons by lia. replace (Z.succ k) with (k + 1) by lia.
    replace (Z.pred (15 - k)) with (15 - (k + 1)) by lia. rewrite outcome_forEachM_cons.
    destruct (render_day LocalTZA clock cols now k st) as [[[]|e] st1] eqn:Hd.
    + destruct (IH (k + 1) st1 ltac:(lia)) as (m & Hm & Hsteps).
      exists (S m). split; [lia|]. eapply nsteps_l; [|exact Hsteps]. apply step_day; [lia | exact Hd].
    + exists 1%nat. split; [lia|]. apply nsteps_once. apply step_throw; [lia | exact Hd].
Qed.

Lemma outcome_final {A} (r : result A * rstate) : final (outcome r) = true.
Proof. by destruct r as [[]]. Qed.

(** A final state reachable from [x] is the only one. *)
Lemma rtc_final_iff (x o y : loop_state) :
  rtc step x o -> final o = true -> final y = true -> rtc step x y <-> y = o.
Proof.
  intros Ho Hfo Hfy. split; [|by intros ->].
  intros Hy. eapply rtc_nf_unique; [apply step_det | exact Hy | exact Ho | by apply final_nf..].
Qed.

End Steps.

(** The fifteen offsets of the loop. *)
Lemma day_offsets_seqZ : day_offsets = seqZ 0 (15 - 0).
Proof. reflexivity. Qed.

(** The result [renderTable] returns for a final state of its loop. *)
Definition loop_result (x : loop_state) : result unit * rstate :=
  match x with
  | Done st | Running _ st => (Ok tt, st)
  | Aborted e st => (Throw e, st)
  end.

Section Claims.

Context `{Intl : IntlService} (LocalTZA : Z) (clock : nat -> Z).

Lemma renderTable_loop_result (tzParam : option string) (s : rstate) :
  renderTable LocalTZA clock tzParam s =
  loop_result (outcome (forEachM (render_day LocalTZA clock (getTimezones tzParam) (clock (ticks s)))
                          (seqZ 0 (15 - 0)) (mk_rstate [] (S (ticks s))))).
Proof.
  unfold renderTable. cbv zeta. erewrite bind_run_Ok by reflexivity.
  erewrite bind_run_Ok by reflexivity. rewrite day_offsets_seqZ.
  unfold bind. by destruct (forEachM _ _ _) as [[]].
Qed.

(** The transition system of the [for] statement and the functional
    model of [renderTable] agree: the loop started after the container is
    emptied and [now] is read exits normally in a state exactly when
    [renderTable] returns in that state, and aborts with an exception
    exactly when [renderTable] throws it. *)
Theorem renderTable_loop (tzParam : option string) (s : rstate) :
  let sys := step LocalTZA clock (getTimezones tzParam) (clock (ticks s)) in
  (forall st, rtc sys (loop_init s) (Done st) <-> renderTable LocalTZA clock tzParam s = (Ok tt, st)) /\
  (forall e st, rtc sys (loop_init s) (Aborted e st) <->
                renderTable LocalTZA clock tzParam s = (Throw e, st)).
Proof.
  cbv zeta. unfold loop_init. rewrite renderTable_loop_result.
  destruct (loop_nsteps_outcome LocalTZA clock (getTimezones tzParam) (clock (ticks s)) 15 0
              (mk_rstate [] (S (ticks s))) eq_refl) as (m & _ & Hm%rtc_nsteps_2).
  pose proof (outcome_final (forEachM (render_day LocalTZA clock (getTimezones tzParam) (clock (ticks s)))
                               (seqZ 0 (15 - 0)) (mk_rstate [] (S (ticks s))))) as Hf.
  split; [intros st; rewrite (rtc_final_iff _ _ _ _ _ _ (Done st) Hm Hf eq_refl)
         |intros e st; rewrite (rtc_final_iff _ _ _ _ _ _ (Aborted e st) Hm Hf eq_refl)];
    revert Hf; destruct (outcome _) as [k st0|st0|e0 st0]; intros Hf; try discriminate Hf;
    cbn [loop_result]; split; intros; congruence.
Qed.

(** C19: from any state, the loop reaches a final state ([Done] or
    [Aborted]) within [1 + (15 - dayOffset)] steps. *)
Theorem loop_reaches_final (cols : list tz_obj) (now : Z) (k : Z) (st : rstate) :
  exists x m, final x = true /\ (m <= S (Z.to_nat (15 - k)))%nat /\
              nsteps (step LocalTZA clock cols now) m (Running k st) x.
Proof.
  destruct (loop_nsteps_outcome LocalTZA clock cols now _ k st eq_refl) as (m & Hm & Hs).
  exists (outcome (forEachM (render_day LocalTZA clock cols now) (seqZ k (15 - k)) st)), m.
  split_and!; [apply outcome_final | exact Hm | exact Hs].
Qed.

(** C20: every state the loop reaches satisfies the loop invariant: after
    [k] iterations the container holds exactly [k] well-formed sections
    (one header per column, the rows from the start hour to 23, one cell
    per column, open when today's or the second) and the clock has been
    read [1 + reads] times per iteration; an aborted loop has appended
    fewer than fifteen sections and throws the [RangeError] of a column. *)
Theorem loop_invariant (tzParam : option string) (s : rstate) (x : loop_state) :
  rtc (step LocalTZA clock (getTimezones tzParam) (clock (ticks s))) (loop_init s) x ->
  loop_inv LocalTZA (getTimezones tzParam) (clock (ticks s)) (S (ticks s)) x.
Proof.
  revert x. apply rtc_ind_r.
  - cbn [loop_init loop_inv container ticks]. split_and!; [lia | lia | done | | lia].
    intros j d. by rewrite lookup_nil.
  - intros y z _ Hyz Hy. by eapply step_inv.
Qed.

End Claims.

(** ** The loop of a render under the [Etc/*] Intl service

    The render of [Grid.v]'s examples: local zone UTC, columns
    [?tz=+4, Etc/GMT-2], the clock frozen at 2025-11-09 10:00 UTC. *)
Section Examples.

Import EtcZones.

Definition ex_cols : list tz_obj := getTimezones ex_param.

(** The state after the first iteration. *)
Definition ex_loop_state1 : loop_state :=
  Running 1 (snd (render_day 0 ex_clock ex_cols (ex_clock 0) 0 (mk_rstate [] 1))).

Lemma loop_invariant_witness :
  rtc (step 0 ex_clock (getTimezones ex_param) (ex_clock (ticks (mk_rstate [] 0))))
      (loop_init (mk_rstate [] 0)) ex_loop_state1 /\
  loop_inv 0 (getTimezones ex_param) (ex_clock (ticks (mk_rstate [] 0))) (S (ticks (mk_rstate [] 0)))
           ex_loop_state1.
Proof.
  assert (H : rtc (step 0 ex_clock (getTimezones ex_param) (ex_clock (ticks (mk_rstate [] 0))))
                  (loop_init (mk_rstate [] 0)) ex_loop_state1).
  { apply rtc_once. unfold loop_init, ex_loop_state1. apply step_day; [lia | vm_compute; reflexivity]. }
  split; [exact H | exact (loop_invariant 0 ex_clock ex_param (mk_rstate [] 0) _ H)].
Defined.

End Examples.

End RenderLoop.
