(* ===== verification/Query.v ===== *)
(** * Reading the [tz] parameter of the page's query string

    [getTimezones] (lines 3-4 of [src/script.js]) starts with
    [new URLSearchParams(window.location.search).get('tz')].  The module
    [UrlQuery] models that call as the URL Standard defines it: a leading
    [?] is dropped, the string is split on [&], empty pieces are skipped,
    each piece is split at its first [=], and in the name and the value
    [+] is read as a space and then every [%XX] of two hexadecimal digits
    is read as the byte [XX] (percent-decode; a [%] without two hex
    digits stays).  [get] returns the value of the first pair with the
    name, or [null] ([None]).  Bytes are Stdlib [ascii]s, as in the rest
    of the development (the UTF-8 decoding of the bytes is not modelled).

    The theorems: an offset written with a raw [+] ([?tz=+4]) is read as
    [" 4"], which the parser trims to the same column as [+4]; but a zone
    name with a raw [+] ([?tz=Etc/GMT+n]) is read as [Etc/GMT n], a name
    no zone has, so under any Intl service without such a zone the whole
    render aborts, while the link written with [%2B] renders. *)

From S2P Require Import Prelude JsString Parser Calendar JsDate Intl Grid.

Local Open Scope Z_scope.

Module UrlQuery.
Import TzParser.

(** ** Decoding *)

(** The value of an ASCII hexadecimal digit. *)
Definition hex_value (c : ascii) : option Z :=
  let n := Z.of_N (N_of_ascii c) in
  if (48 <=? n) && (n <=? 57) then Some (n - 48)
  else if (65 <=? n) && (n <=? 70) then Some (n - 55)
  else if (97 <=? n) && (n <=? 102) then Some (n - 87)
  else None.

Definition byte_of (n : Z) : ascii := ascii_of_N (Z.to_N n).

(** percent-decode (URL Standard, 1.3). *)
Fixpoint percent_decode (s : string) : string :=
  match s with
  | EmptyString => EmptyString
  | String c t =>
      if decide (c = "%"%char) then
        match t with
        | String h1 (String h2 rest) =>
            match hex_value h1, hex_value h2 with
            | Some a, Some b => String (byte_of (16 * a + b)) (percent_decode rest)
            | _, _ => String c (percent_decode t)
            end
        | _ => String c (percent_decode t)
        end
      else String c (percent_decode t)
  end.

(** A name or a value: [+] becomes a space, then percent-decode. *)
Definition decode_component (s : string) : string := percent_decode (replace_all "+" " " s).

(** A piece split at its first [=]; [None] when it has none. *)
Fixpoint split_first_eq (s : string) : string * option string :=
  match s with
  | EmptyString => (EmptyString, None)
  | String c t =>
      if decide (c = "="%char) then (EmptyString, Some t)
      else let '(name, value) := split_first_eq t in (String c name, value)
  end.

(** The application/x-www-form-urlencoded parser. *)
Definition form_parse (input : string) : list (string * string) :=
  omap (fun piece =>
          match piece with
          | EmptyString => None
          | _ => let '(name, value) := split_first_eq piece in
                 Some (decode_component name, decode_component (default "" value))
          end)
       (js_split "&" input).

(** [new URLSearchParams(init)] for a string [init]. *)
Definition URLSearchParams (init : string) : list (string * string) :=
  match init with
  | String "?" rest => form_parse rest
  | _ => form_parse init
  end.

(** [params.get(name)]. *)
Definition params_get (name : string) (params : list (string * string)) : option string :=
  snd <$> List.find (fun p => bool_decide (fst p = name)) params.

(** Lines 3-4: [tzParam] of the page whose query string is [search]. *)
Definition tzParam_of (search : string) : option string := params_get "tz" (URLSearchParams search).

(** ** Laws of decoding *)

Section Laws.

Lemma replace_all_app (a b : ascii) (s1 s2 : string) :
  replace_all a b (s1 +:+ s2) = replace_all a b s1 +:+ replace_all a b s2.
Proof. induction s1 as [|c s1 IH]; simpl; [done|]. by rewrite IH. Qed.

(** A component without [+] and [%] is read as it is. *)
Lemma decode_plain (s : string) :
  str_forall (fun c => negb (bool_decide (c = "+"%char)) && negb (bool_decide (c = "%"%char))) s = true ->
  decode_component s = s.
Proof.
  unfold decode_component. induction s as [|c s IH]; [done|]. cbn [str_forall replace_all].
  intros [[Hp Hpc]%andb_prop Hs]%andb_prop.
  apply negb_true_iff, bool_decide_eq_false in Hp. apply negb_true_iff, bool_decide_eq_false in Hpc.
  rewrite decide_False by done. cbn [percent_decode]. rewrite decide_False by done. by rewrite IH.
Qed.

Definition plain_char (c : ascii) : bool :=
  negb (bool_decide (c = "+"%char)) && negb (bool_decide (c = "%"%char)) &&
  negb (bool_decide (c = "&"%char)).

(** A string of decimal digits has no [+], [%] or [&]. *)
Lemma digits_plain (s : string) : all_dec_digits s = true -> str_forall plain_char s = true.
Proof.
  rewrite all_dec_digits_forall. apply str_forall_impl. intros c.
  assert (Hc : forall c, implb (is_dec_digit c) (plain_char c) = true)
    by (apply char_check; vm_compute; reflexivity).
  specialize (Hc c). destruct (is_dec_digit c); [done | discriminate].
Qed.

Lemma plain_decode (s : string) : str_forall plain_char s = true -> decode_component s = s.
Proof.
  intros H. apply decode_plain. revert H. apply str_forall_impl. intros c.
  unfold plain_char. by intros [-> _]%andb_prop.
Qed.

Lemma plain_no_amp (s : string) : str_forall plain_char s = true -> js_includes "&" s = false.
Proof.
  intros H. apply includes_forall. revert H. apply str_forall_impl. intros c.
  unfold plain_char. by intros [_ ->]%andb_prop.
Qed.

(** The query [?tz=] followed by a piece without [&]: its value. *)
Lemma tzParam_of_single (e : string) :
  js_includes "&" e = false -> tzParam_of ("?tz=" +:+ e) = Some (decode_component e).
Proof.
  intros He. unfold tzParam_of.
  change ("?tz=" +:+ e) with (String "?" (String "t" (String "z" (String "=" e)))).
  unfold URLSearchParams, form_parse. rewrite js_split_free by exact He. reflexivity.
Qed.

(** The decimal rendering of a non-negative integer is made of digits. *)
Lemma number_digits (n : Z) : 0 <= n -> all_dec_digits (js_number_to_string n) = true.
Proof.
  intros Hn. pose proof (proj2 (is_int_literal_number_to_string n) Hn) as H.
  cbn [is_int_literal] in H. by apply andb_prop in H as [_ H].
Qed.

Lemma getTimezones_single (t : string) :
  t <> "" -> js_includes "," t = false -> getTimezones (Some t) = [parse_token t].
Proof.
  intros Hne Hc. unfold getTimezones, truthy. rewrite bool_decide_false by done.
  rewrite js_split_free by done. reflexivity.
Qed.

Lemma string_app_nil (s : string) : s +:+ "" = s.
Proof. induction s as [|c s IH]; [reflexivity|]. exact (f_equal (String c) IH). Qed.

(** The ['+'] to space step leaves a component without [+] alone. *)
Lemma replace_plus_plain (s : string) : str_forall plain_char s = true -> replace_all "+" " " s = s.
Proof.
  induction s as [|c s IH]; [done|]. cbn [str_forall replace_all]. unfold plain_char at 1.
  intros [[[Hp _]%andb_prop _]%andb_prop Hs]%andb_prop.
  apply negb_true_iff, bool_decide_eq_false in Hp. rewrite decide_False by done. by rewrite IH.
Qed.

Lemma percent_decode_plain (s : string) : str_forall plain_char s = true -> percent_decode s = s.
Proof. intros Hs. pose proof (plain_decode s Hs) as H. unfold decode_component in H. by rewrite replace_plus_plain in H. Qed.

(** A prefix without [%] is copied by percent-decode. *)
Lemma percent_decode_app (p r : string) :
  js_includes "%" p = false -> percent_decode (p +:+ r) = p +:+ percent_decode r.
Proof.
  induction p as [|c p IH]; [done|]. cbn [js_includes]. intros [Hc Hp]%orb_false_iff.
  apply bool_decide_eq_false in Hc. change (String c p +:+ r) with (String c (p +:+ r)).
  cbn [percent_decode]. rewrite decide_False by done. by rewrite IH.
Qed.

(** An escape [%XX] of two hexadecimal digits is the byte [XX]. *)
Lemma percent_decode_escape (h1 h2 : ascii) (a b : Z) (r : string) :
  hex_value h1 = Some a -> hex_value h2 = Some b ->
  percent_decode (String "%" (String h1 (String h2 r))) = String (byte_of (16 * a + b)) (percent_decode r).
Proof. intros H1 H2. cbn [percent_decode]. rewrite decide_True by done. by rewrite H1, H2. Qed.

(** [trim_end] keeps a prefix in front of a non-empty tail it keeps. *)
Lemma trim_end_app_tail (p d : string) :
  trim_end d = d -> d <> "" -> trim_end (p +:+ d) = p +:+ d.
Proof.
  intros Hd Hne. induction p as [|c p IH]; [done|].
  change (String c p +:+ d) with (String c (p +:+ d)). cbn [trim_end]. rewrite IH.
  rewrite bool_decide_false; [by rewrite andb_false_r|]. by destruct p.
Qed.

(** The facts on the decimal rendering [d] of a non-negative integer that
    the query examples use: digits only, non-empty, its own trim. *)
Lemma number_plain (n : Z) :
  0 <= n ->
  str_forall plain_char (js_number_to_string n) = true /\ js_number_to_string n <> "" /\
  trim_end (js_number_to_string n) = js_number_to_string n /\
  js_includes ":" (js_number_to_string n) = false /\ js_includes "," (js_number_to_string n) = false.
Proof.
  intros Hn. pose proof (number_digits n Hn) as Hdig.
  destruct (is_int_literal_number_to_string n) as [Hlit _].
  destruct (int_literal_plain _ Hlit) as (Htrim & Hcolon & Hcomma & _).
  assert (Hne : js_number_to_string n <> "") by (intros Hd; rewrite Hd in Hlit; discriminate).
  destruct (parse_digit_run _ Hne Hdig) as [Hs _]. unfold js_trim in Htrim. rewrite Hs in Htrim.
  split_and!; [exact (digits_plain _ Hdig) | done..].
Qed.

(** The columns of [Etc/GMT+n] and of [Etc/GMT n]: one named column. *)
Lemma getTimezones_etc_name (p : string) (n : Z) :
  0 <= n -> p = "Etc/GMT " \/ p = "Etc/GMT+" ->
  getTimezones (Some (p +:+ js_number_to_string n)) =
    [mk_tz_obj (p +:+ js_number_to_string n) None false].
Proof.
  intros Hn Hp. destruct (number_plain n Hn) as (_ & Hne & Hend & Hcolon & Hcomma).
  set (d := js_number_to_string n) in *.
  rewrite getTimezones_single; [f_equal | by destruct Hp as [-> | ->] |
                                by destruct Hp as [-> | ->]; rewrite js_includes_app, Hcomma].
  unfold parse_token, js_trim.
  assert (Hts : trim_start (p +:+ d) = p +:+ d) by (destruct Hp as [-> | ->]; reflexivity).
  rewrite Hts, trim_end_app_tail by done. unfold zone_and_label.
  assert (Hc : js_includes ":" (p +:+ d) = false)
    by (destruct Hp as [-> | ->]; by rewrite js_includes_app, Hcolon).
  rewrite Hc. by destruct Hp as [-> | ->].
Qed.

(** C23: an offset written with a raw [+] in the URL ([?tz=+4]) reaches
    [getTimezones] as [" 4"], since [URLSearchParams] reads [+] as a
    space; the parser trims it and builds the same column as for [+4]. *)
Theorem tzParam_plus_offset (n : Z) :
  0 <= n ->
  tzParam_of ("?tz=+" +:+ js_number_to_string n) = Some (" " +:+ js_number_to_string n) /\
  getTimezones (tzParam_of ("?tz=+" +:+ js_number_to_string n)) =
    getTimezones (Some ("+" +:+ js_number_to_string n)).
Proof.
  intros Hn. pose proof (digits_plain _ (number_digits n Hn)) as Hp.
  destruct (is_int_literal_number_to_string n) as [Hlit Hplus]. specialize (Hplus Hn).
  pose proof (parseInt_number_to_string n) as Hint. pose proof (parseInt_plus_number_to_string n Hn) as Hpint.
  set (d := js_number_to_string n) in *.
  destruct (int_literal_plain d Hlit) as (_ & _ & Hcomma & _).
  assert (Hq : tzParam_of ("?tz=+" +:+ d) = Some (" " +:+ d)).
  { change ("?tz=+" +:+ d) with ("?tz=" +:+ ("+" +:+ d)).
    rewrite tzParam_of_single by (cbn [js_includes String.append]; exact (plain_no_amp d Hp)).
    change ("+" +:+ d) with (String "+" d). change (" " +:+ d) with (String " " d).
    unfold decode_component. cbn [replace_all]. rewrite ?decide_True by done.
    cbn [percent_decode]. rewrite ?decide_False by done. f_equal. f_equal. exact (plain_decode d Hp). }
  split; [exact Hq|]. rewrite Hq.
  rewrite getTimezones_single by (cbn [js_includes]; done).
  rewrite <- (string_app_nil d) at 1. rewrite parse_token_pad by done.
  rewrite <- getTimezones_single by first [exact Hcomma | intros Hd; rewrite Hd in Hlit; discriminate].
  rewrite (getTimezones_literal d n Hlit Hint).
  by rewrite (getTimezones_literal ("+" +:+ d) n Hplus Hpint).
Qed.

End Laws.

(** [?tz=+4]: the value [" 4"] and the same column as [+4]. *)
Lemma tzParam_plus_offset_witness :
  0 <= 4 /\ tzParam_of "?tz=+4" = Some " 4" /\
  getTimezones (tzParam_of "?tz=+4") = getTimezones (Some "+4").
Proof. split; [lia|]. exact (tzParam_plus_offset 4 ltac:(lia)). Defined.

(** ** A named zone with a raw [+] *)

Section RawPlus.
Import IntlDTF Render.
Context `{Intl : IntlService}.

(** C24: a link [?tz=Etc/GMT+n] ([n >= 0]) reaches [getTimezones] as
    [Etc/GMT n], since [URLSearchParams] reads [+] as a space.  Under any
    Intl service that knows [Etc/GMT+n] and has no zone [Etc/GMT n] (as
    the IANA database), every render of that page throws the [RangeError]
    of [Etc/GMT n] and leaves the container empty, whatever the clock and
    the viewer's offset; the link written [?tz=Etc/GMT%2Bn] reaches
    [getTimezones] as [Etc/GMT+n] and the page renders. *)
Theorem tzParam_raw_plus_zone (LocalTZA : Z) (clk : nat -> Z) (n : Z) (s : rstate) :
  0 <= n ->
  is_valid_tz ("Etc/GMT " +:+ js_number_to_string n) = false ->
  is_valid_tz ("Etc/GMT+" +:+ js_number_to_string n) = true ->
  tzParam_of ("?tz=Etc/GMT+" +:+ js_number_to_string n) = Some ("Etc/GMT " +:+ js_number_to_string n) /\
  fst (renderTable LocalTZA clk (tzParam_of ("?tz=Etc/GMT+" +:+ js_number_to_string n)) s) =
    Throw (RangeError ("Invalid time zone specified: " +:+ ("Etc/GMT " +:+ js_number_to_string n))) /\
  container (snd (renderTable LocalTZA clk (tzParam_of ("?tz=Etc/GMT+" +:+ js_number_to_string n)) s)) = [] /\
  tzParam_of ("?tz=Etc/GMT%2B" +:+ js_number_to_string n) = Some ("Etc/GMT+" +:+ js_number_to_string n) /\
  fst (renderTable LocalTZA clk (tzParam_of ("?tz=Etc/GMT%2B" +:+ js_number_to_string n)) s) = Ok tt.
Proof.
  intros Hn Hbad Hgood. destruct (number_plain n Hn) as (Hp & _).
  pose proof (percent_decode_plain _ Hp) as Hpd. pose proof (replace_plus_plain _ Hp) as Hrp.
  set (d := js_number_to_string n) in *.
  assert (Hraw : tzParam_of ("?tz=Etc/GMT+" +:+ d) = Some ("Etc/GMT " +:+ d)).
  { change ("?tz=Etc/GMT+" +:+ d) with ("?tz=" +:+ ("Etc/GMT+" +:+ d)).
    rewrite tzParam_of_single by (rewrite js_includes_app; exact (plain_no_amp d Hp)).
    unfold decode_component. rewrite replace_all_app, Hrp, percent_decode_app by reflexivity.
    by rewrite Hpd. }
  assert (Henc : tzParam_of ("?tz=Etc/GMT%2B" +:+ d) = Some ("Etc/GMT+" +:+ d)).
  { change ("?tz=Etc/GMT%2B" +:+ d) with ("?tz=" +:+ ("Etc/GMT%2B" +:+ d)).
    rewrite tzParam_of_single by (rewrite js_includes_app; exact (plain_no_amp d Hp)).
    unfold decode_component. rewrite replace_all_app, Hrp.
    change (replace_all "+" " " "Etc/GMT%2B" +:+ d) with ("Etc/GMT" +:+ String "%" (String "2" (String "B" d))).
    rewrite percent_decode_app by reflexivity. rewrite (percent_decode_escape "2" "B" 2 11) by reflexivity.
    by rewrite Hpd. }
  rewrite Hraw, Henc.
  pose proof (getTimezones_etc_name "Etc/GMT " n Hn (or_introl eq_refl)) as Hcols_bad.
  pose proof (getTimezones_etc_name "Etc/GMT+" n Hn (or_intror eq_refl)) as Hcols_good.
  fold d in Hcols_bad, Hcols_good.
  destruct (renderTable_invalid_run LocalTZA clk (Some ("Etc/GMT " +:+ d)) s
              (mk_tz_obj ("Etc/GMT " +:+ d) None false) ltac:(rewrite Hcols_bad; left) Hbad)
    as (e & k & Hrun & c & Hin & _ & ->).
  rewrite Hcols_bad in Hin. apply list_elem_of_singleton in Hin as ->.
  rewrite Hrun. do 4 (split; [reflexivity|]).
  rewrite renderTable_valid_run; [reflexivity|]. rewrite Hcols_good. by repeat constructor.
Qed.

End RawPlus.

Section Examples.
Import IntlDTF Render EtcZones.

(** [?tz=Etc/GMT+5] under the [Etc/GMT] zones: the zone [Etc/GMT 5] is
    unknown and the render throws; [?tz=Etc/GMT%2B5] renders. *)
Lemma tzParam_raw_plus_zone_witness :
  (0 <= 5 /\ is_valid_tz ("Etc/GMT " +:+ js_number_to_string 5) = false /\
   is_valid_tz ("Etc/GMT+" +:+ js_number_to_string 5) = true) /\
  tzParam_of ("?tz=Etc/GMT+" +:+ js_number_to_string 5) = Some ("Etc/GMT " +:+ js_number_to_string 5) /\
  fst (renderTable 0 ex_clock (tzParam_of ("?tz=Etc/GMT+" +:+ js_number_to_string 5)) (mk_rstate [] 0)) =
    Throw (RangeError ("Invalid time zone specified: " +:+ ("Etc/GMT " +:+ js_number_to_string 5))) /\
  container (snd (renderTable 0 ex_clock (tzParam_of ("?tz=Etc/GMT+" +:+ js_number_to_string 5))
                   (mk_rstate [] 0))) = [] /\
  tzParam_of ("?tz=Etc/GMT%2B" +:+ js_number_to_string 5) = Some ("Etc/GMT+" +:+ js_number_to_string 5) /\
  fst (renderTable 0 ex_clock (tzParam_of ("?tz=Etc/GMT%2B" +:+ js_number_to_string 5)) (mk_rstate [] 0)) =
    Ok tt.
Proof.
  assert (Hbad : is_valid_tz ("Etc/GMT " +:+ js_number_to_string 5) = false) by (vm_compute; reflexivity).
  assert (Hgood : is_valid_tz ("Etc/GMT+" +:+ js_number_to_string 5) = true) by (vm_compute; reflexivity).
  split; [split_and!; [lia | exact Hbad | exact Hgood]|].
  exact (tzParam_raw_plus_zone 0 ex_clock 5 (mk_rstate [] 0) ltac:(lia) Hbad Hgood).
Defined.

End Examples.

End UrlQuery.
